(** * blender4cubes: the marker handler and the WebGL pipeline of [index.js]

    A shallow embedding of [src/index.js] (the interactive variant) over a
    small model of the WebGL 1.0 context it drives.

    - JavaScript numbers are IEEE binary64: Rocq's primitive [float].
    - DOM integer attributes ([clientX], [offsetLeft], [image.width], all
      WebIDL [long]/[unsigned long]) are [Z], converted where the script
      reads them as numbers.
    - WebGL objects are named by [nat]; a nullable handle is [option nat].
    - The context is threaded through a state-and-exception monad: a
      WebIDL call given [null] for a non-nullable object throws [TypeError].

    Not modelled: the framebuffer, uniform uploads (the two matrices and the
    sampler index, which is 0 by default and set to 0), context loss, and
    the pixels the 2D canvas shows for [drawImage]. *)

From Stdlib Require Import ZArith Floats Uint63 Lia.
From stdpp Require Import base option list gmap strings.

Local Open Scope Z_scope.

(** ** JavaScript numbers *)

Module JS.

(** A DOM [long] read as a Number. Exact: every 32-bit integer is a
    binary64 value. *)
Definition of_long (z : Z) : float :=
  match z with
  | Z0 => PrimFloat.zero
  | Zpos _ => PrimFloat.of_uint63 (Uint63.of_Z z)
  | Zneg p => PrimFloat.opp (PrimFloat.of_uint63 (Uint63.of_Z (Zpos p)))
  end.

(** [Math.min] and [Math.max]: NaN if either argument is NaN, and -0 is
    smaller than +0. *)
Definition math_min (x y : float) : float :=
  if PrimFloat.is_nan x || PrimFloat.is_nan y then PrimFloat.nan
  else if PrimFloat.ltb x y then x
  else if PrimFloat.ltb y x then y
  else if PrimFloat.get_sign x then x else y.

Definition math_max (x y : float) : float :=
  if PrimFloat.is_nan x || PrimFloat.is_nan y then PrimFloat.nan
  else if PrimFloat.ltb x y then y
  else if PrimFloat.ltb y x then x
  else if PrimFloat.get_sign x then y else x.

(** ToNumber of a property that may be [undefined]. *)
Definition to_number (o : option float) : float :=
  match o with Some f => f | None => PrimFloat.nan end.

Definition is_finite (f : float) : bool :=
  negb (PrimFloat.is_nan f || PrimFloat.is_infinity f).

(** [Math.fround]: the binary32 value a [Float32Array] slot stores. *)
Definition fround (f : float) : float :=
  match Prim2SF f with
  | S754_finite s m e =>
      SF2Prim (binary_normalize 24 128 (if s then Zneg m else Zpos m) e s)
  | _ => f
  end.

End JS.

(** ** The WebGL context *)

Inductive ShaderType := VERTEX_SHADER | FRAGMENT_SHADER.
Inductive BufferTarget := ARRAY_BUFFER | ELEMENT_ARRAY_BUFFER.
Inductive TexParam := TEXTURE_WRAP_S | TEXTURE_WRAP_T | TEXTURE_MIN_FILTER | TEXTURE_MAG_FILTER.
Inductive TexParamValue :=
  | REPEAT | CLAMP_TO_EDGE | MIRRORED_REPEAT
  | NEAREST | LINEAR | NEAREST_MIPMAP_LINEAR.
Inductive DrawMode := POINTS | LINES | TRIANGLES.
Inductive PixelFormat := RGBA.
Inductive GLType := UNSIGNED_BYTE | UNSIGNED_SHORT | FLOAT.

#[global] Instance ShaderType_eq_dec : EqDecision ShaderType.
Proof. solve_decision. Defined.
#[global] Instance TexParamValue_eq_dec : EqDecision TexParamValue.
Proof. solve_decision. Defined.

(** Typed arrays handed to [bufferData]/[texImage2D]. The constructors of
    [TypedArray] hold the stored elements; the [new_*] functions below are
    the JavaScript constructors, which convert each element. *)
Inductive TypedArray :=
  | NoData
  | Float32Array (l : list float)
  | Uint16Array (l : list Z)
  | Uint8Array (l : list Z).

Definition new_Float32Array (l : list float) : TypedArray :=
  Float32Array (JS.fround <$> l).
Definition new_Uint16Array (l : list Z) : TypedArray :=
  Uint16Array ((fun z => z mod 65536) <$> l).
Definition new_Uint8Array (l : list Z) : TypedArray :=
  Uint8Array ((fun z => z mod 256) <$> l).

Definition elements (a : TypedArray) : nat :=
  match a with
  | NoData => 0%nat
  | Float32Array l => length l
  | Uint16Array l | Uint8Array l => length l
  end.

Record Shader := {
  shType : ShaderType;
  shSource : string;
  shCompileStatus : bool;
  shInfoLog : string;
}.

Record Program := {
  prAttached : list nat;
  prLinkStatus : bool;
  prInfoLog : string;
}.

(** The source of a texture level: raw pixels, or a decoded image element
    of the given size. *)
Inductive TexSource :=
  | Pixels (a : TypedArray)
  | FromImage (w h : Z).

Record TexImage := {
  tiWidth : Z;
  tiHeight : Z;
  tiSource : TexSource;
}.

Record Texture := {
  txWrapS : TexParamValue;
  txWrapT : TexParamValue;
  txMinFilter : TexParamValue;
  txMagFilter : TexParamValue;
  txLevels : gmap Z TexImage;
}.

Record VertexAttrib := {
  vaBuffer : option nat;
  vaSize : Z;
  vaEnabled : bool;
}.

(** What one [drawElements] call read. *)
Record DrawCall := {
  dcMode : DrawMode;
  dcCount : Z;
  dcType : GLType;
  dcOffset : Z;
  dcElementBuffer : option nat;
  dcAttribs : gmap Z VertexAttrib;
  dcTexture : option nat;
  dcBuffers : gmap nat TypedArray;
  dcTextures : gmap nat Texture;
}.

(** The GLSL compiler and linker of the platform. *)
Record Driver := {
  drvCompile : ShaderType -> string -> bool * string;
  drvLink : list Shader -> bool * string;
  drvAttribLocation : string -> Z;
}.

Record Context := {
  driver : Driver;
  nextName : nat;
  shaders : gmap nat Shader;
  programs : gmap nat Program;
  buffers : gmap nat TypedArray;
  textures : gmap nat Texture;
  arrayBufferBinding : option nat;
  elementArrayBufferBinding : option nat;
  activeUnit : nat;
  textureBindings : gmap nat nat;
  currentProgram : option nat;
  vertexAttribs : gmap Z VertexAttrib;
  drawCalls : list DrawCall;
  console : list (string * string);
}.

Definition newContext (drv : Driver) : Context :=
  {| driver := drv; nextName := 0%nat; shaders := ∅; programs := ∅;
     buffers := ∅; textures := ∅; arrayBufferBinding := None;
     elementArrayBufferBinding := None; activeUnit := 0%nat;
     textureBindings := ∅; currentProgram := None; vertexAttribs := ∅;
     drawCalls := []; console := [] |}.

(** Field updates. *)
Definition with_nextName (v : nat) (c : Context) : Context :=
  Build_Context (driver c) v (shaders c) (programs c) (buffers c) (textures c)
    (arrayBufferBinding c) (elementArrayBufferBinding c) (activeUnit c)
    (textureBindings c) (currentProgram c) (vertexAttribs c) (drawCalls c) (console c).
Definition with_shaders (v : gmap nat Shader) (c : Context) : Context :=
  Build_Context (driver c) (nextName c) v (programs c) (buffers c) (textures c)
    (arrayBufferBinding c) (elementArrayBufferBinding c) (activeUnit c)
    (textureBindings c) (currentProgram c) (vertexAttribs c) (drawCalls c) (console c).
Definition with_programs (v : gmap nat Program) (c : Context) : Context :=
  Build_Context (driver c) (nextName c) (shaders c) v (buffers c) (textures c)
    (arrayBufferBinding c) (elementArrayBufferBinding c) (activeUnit c)
    (textureBindings c) (currentProgram c) (vertexAttribs c) (drawCalls c) (console c).
Definition with_buffers (v : gmap nat TypedArray) (c : Context) : Context :=
  Build_Context (driver c) (nextName c) (shaders c) (programs c) v (textures c)
    (arrayBufferBinding c) (elementArrayBufferBinding c) (activeUnit c)
    (textureBindings c) (currentProgram c) (vertexAttribs c) (drawCalls c) (console c).
Definition with_textures (v : gmap nat Texture) (c : Context) : Context :=
  Build_Context (driver c) (nextName c) (shaders c) (programs c) (buffers c) v
    (arrayBufferBinding c) (elementArrayBufferBinding c) (activeUnit c)
    (textureBindings c) (currentProgram c) (vertexAttribs c) (drawCalls c) (console c).
Definition with_arrayBufferBinding (v : option nat) (c : Context) : Context :=
  Build_Context (driver c) (nextName c) (shaders c) (programs c) (buffers c) (textures c)
    v (elementArrayBufferBinding c) (activeUnit c)
    (textureBindings c) (currentProgram c) (vertexAttribs c) (drawCalls c) (console c).
Definition with_elementArrayBufferBinding (v : option nat) (c : Context) : Context :=
  Build_Context (driver c) (nextName c) (shaders c) (programs c) (buffers c) (textures c)
    (arrayBufferBinding c) v (activeUnit c)
    (textureBindings c) (currentProgram c) (vertexAttribs c) (drawCalls c) (console c).
Definition with_activeUnit (v : nat) (c : Context) : Context :=
  Build_Context (driver c) (nextName c) (shaders c) (programs c) (buffers c) (textures c)
    (arrayBufferBinding c) (elementArrayBufferBinding c) v
    (textureBindings c) (currentProgram c) (vertexAttribs c) (drawCalls c) (console c).
Definition with_textureBindings (v : gmap nat nat) (c : Context) : Context :=
  Build_Context (driver c) (nextName c) (shaders c) (programs c) (buffers c) (textures c)
    (arrayBufferBinding c) (elementArrayBufferBinding c) (activeUnit c)
    v (currentProgram c) (vertexAttribs c) (drawCalls c) (console c).
Definition with_currentProgram (v : option nat) (c : Context) : Context :=
  Build_Context (driver c) (nextName c) (shaders c) (programs c) (buffers c) (textures c)
    (arrayBufferBinding c) (elementArrayBufferBinding c) (activeUnit c)
    (textureBindings c) v (vertexAttribs c) (drawCalls c) (console c).
Definition with_vertexAttribs (v : gmap Z VertexAttrib) (c : Context) : Context :=
  Build_Context (driver c) (nextName c) (shaders c) (programs c) (buffers c) (textures c)
    (arrayBufferBinding c) (elementArrayBufferBinding c) (activeUnit c)
    (textureBindings c) (currentProgram c) v (drawCalls c) (console c).
Definition with_drawCalls (v : list DrawCall) (c : Context) : Context :=
  Build_Context (driver c) (nextName c) (shaders c) (programs c) (buffers c) (textures c)
    (arrayBufferBinding c) (elementArrayBufferBinding c) (activeUnit c)
    (textureBindings c) (currentProgram c) (vertexAttribs c) v (console c).
Definition with_console (v : list (string * string)) (c : Context) : Context :=
  Build_Context (driver c) (nextName c) (shaders c) (programs c) (buffers c) (textures c)
    (arrayBufferBinding c) (elementArrayBufferBinding c) (activeUnit c)
    (textureBindings c) (currentProgram c) (vertexAttribs c) (drawCalls c) v.

(** ** The state-and-exception monad of context calls *)

Inductive result (A : Type) :=
  | Return (a : A)
  | Throw (e : string).
Arguments Return {A} a.
Arguments Throw {A} e.

Definition GLM (A : Type) : Type := Context -> result A * Context.

#[global] Instance GLM_ret : MRet GLM := fun A a c => (Return a, c).
#[global] Instance GLM_bind : MBind GLM := fun A B f m c =>
  match m c with
  | (Return a, c') => f a c'
  | (Throw e, c') => (Throw e, c')
  end.

Definition throw {A} (e : string) : GLM A := fun c => (Throw e, c).
Definition get : GLM Context := fun c => (Return c, c).
Definition modify (f : Context -> Context) : GLM unit := fun c => (Return tt, f c).

(** The state a computation leaves, whether it returned or threw. *)
Definition exec {A} (m : GLM A) (c : Context) : Context := snd (m c).

(** A non-nullable WebIDL object argument. *)
Definition nonnull (h : option nat) : GLM nat :=
  match h with
  | Some n => mret n
  | None => throw "TypeError"
  end.

Definition newName : GLM nat := fun c =>
  (Return (nextName c), with_nextName (S (nextName c)) c).

(** ** Context methods

    Each method is the WebGL 1.0 call of the same name. A call the
    specification rejects with a GL error (INVALID_VALUE, INVALID_OPERATION,
    INVALID_ENUM) leaves the context as it was. *)

Definition defaultTexture : Texture :=
  {| txWrapS := REPEAT; txWrapT := REPEAT; txMinFilter := NEAREST_MIPMAP_LINEAR;
     txMagFilter := LINEAR; txLevels := ∅ |}.

Definition defaultAttrib : VertexAttrib :=
  {| vaBuffer := None; vaSize := 4; vaEnabled := false |}.

Definition isWrap (v : TexParamValue) : bool :=
  match v with REPEAT | CLAMP_TO_EDGE | MIRRORED_REPEAT => true | _ => false end.
Definition isMinFilter (v : TexParamValue) : bool :=
  match v with NEAREST | LINEAR | NEAREST_MIPMAP_LINEAR => true | _ => false end.
Definition isMagFilter (v : TexParamValue) : bool :=
  match v with NEAREST | LINEAR => true | _ => false end.

Definition setTexParam (pname : TexParam) (v : TexParamValue) (t : Texture) : Texture :=
  match pname with
  | TEXTURE_WRAP_S =>
      if isWrap v then
        {| txWrapS := v; txWrapT := txWrapT t; txMinFilter := txMinFilter t;
           txMagFilter := txMagFilter t; txLevels := txLevels t |}
      else t
  | TEXTURE_WRAP_T =>
      if isWrap v then
        {| txWrapS := txWrapS t; txWrapT := v; txMinFilter := txMinFilter t;
           txMagFilter := txMagFilter t; txLevels := txLevels t |}
      else t
  | TEXTURE_MIN_FILTER =>
      if isMinFilter v then
        {| txWrapS := txWrapS t; txWrapT := txWrapT t; txMinFilter := v;
           txMagFilter := txMagFilter t; txLevels := txLevels t |}
      else t
  | TEXTURE_MAG_FILTER =>
      if isMagFilter v then
        {| txWrapS := txWrapS t; txWrapT := txWrapT t; txMinFilter := txMinFilter t;
           txMagFilter := v; txLevels := txLevels t |}
      else t
  end.

Definition setTexLevel (level : Z) (i : TexImage) (t : Texture) : Texture :=
  {| txWrapS := txWrapS t; txWrapT := txWrapT t; txMinFilter := txMinFilter t;
     txMagFilter := txMagFilter t; txLevels := <[level := i]> (txLevels t) |}.

(** Is shader [s] attached to some program of the context? *)
Definition isAttached (s : nat) (c : Context) : bool :=
  bool_decide (map_Exists (fun _ pr => s ∈ prAttached pr) (programs c)).

Module gl.

Definition createShader (type : ShaderType) : GLM (option nat) :=
  n ← newName;
  modify (fun c => with_shaders
    (<[n := {| shType := type; shSource := EmptyString;
               shCompileStatus := false; shInfoLog := EmptyString |}]> (shaders c)) c);;
  mret (Some n).

Definition shaderSource (shader : option nat) (source : string) : GLM unit :=
  s ← nonnull shader;
  modify (fun c =>
    match shaders c !! s with
    | Some sh => with_shaders
        (<[s := {| shType := shType sh; shSource := source;
                   shCompileStatus := shCompileStatus sh;
                   shInfoLog := shInfoLog sh |}]> (shaders c)) c
    | None => c
    end).

Definition compileShader (shader : option nat) : GLM unit :=
  s ← nonnull shader;
  modify (fun c =>
    match shaders c !! s with
    | Some sh =>
        let r := drvCompile (driver c) (shType sh) (shSource sh) in
        with_shaders
          (<[s := {| shType := shType sh; shSource := shSource sh;
                     shCompileStatus := fst r; shInfoLog := snd r |}]> (shaders c)) c
    | None => c
    end).

(** [getShaderParameter(shader, gl.COMPILE_STATUS)] *)
Definition getShaderParameter_COMPILE_STATUS (shader : option nat) : GLM bool :=
  s ← nonnull shader;
  c ← get;
  mret (match shaders c !! s with Some sh => shCompileStatus sh | None => false end).

Definition getShaderInfoLog (shader : option nat) : GLM string :=
  s ← nonnull shader;
  c ← get;
  mret (match shaders c !! s with Some sh => shInfoLog sh | None => EmptyString end).

(** A shader that is attached to a program is only flagged and stays
    alive (the flag is not tracked); any other is freed at once. *)
Definition deleteShader (shader : option nat) : GLM unit :=
  match shader with
  | None => mret tt
  | Some s =>
      modify (fun c =>
        if isAttached s c then c else with_shaders (delete s (shaders c)) c)
  end.

Definition createProgram : GLM (option nat) :=
  n ← newName;
  modify (fun c => with_programs
    (<[n := {| prAttached := []; prLinkStatus := false;
               prInfoLog := EmptyString |}]> (programs c)) c);;
  mret (Some n).

(** INVALID_OPERATION if a shader of the same type is already attached. *)
Definition attachShader (program shader : option nat) : GLM unit :=
  p ← nonnull program;
  s ← nonnull shader;
  modify (fun c =>
    match programs c !! p, shaders c !! s with
    | Some pr, Some sh =>
        if existsb (fun s' =>
              match shaders c !! s' with
              | Some sh' => bool_decide (shType sh' = shType sh)
              | None => false
              end) (prAttached pr)
        then c
        else with_programs
          (<[p := {| prAttached := prAttached pr ++ [s];
                     prLinkStatus := prLinkStatus pr;
                     prInfoLog := prInfoLog pr |}]> (programs c)) c
    | _, _ => c
    end).

Definition linkProgram (program : option nat) : GLM unit :=
  p ← nonnull program;
  modify (fun c =>
    match programs c !! p with
    | Some pr =>
        let r := drvLink (driver c) (omap (fun s => shaders c !! s) (prAttached pr)) in
        with_programs
          (<[p := {| prAttached := prAttached pr; prLinkStatus := fst r;
                     prInfoLog := snd r |}]> (programs c)) c
    | None => c
    end).

(** [getProgramParameter(program, gl.LINK_STATUS)] *)
Definition getProgramParameter_LINK_STATUS (program : option nat) : GLM bool :=
  p ← nonnull program;
  c ← get;
  mret (match programs c !! p with Some pr => prLinkStatus pr | None => false end).

Definition getProgramInfoLog (program : option nat) : GLM string :=
  p ← nonnull program;
  c ← get;
  mret (match programs c !! p with Some pr => prInfoLog pr | None => EmptyString end).

(** The program in use is only flagged; any other is freed at once, which
    detaches its shaders. *)
Definition deleteProgram (program : option nat) : GLM unit :=
  match program with
  | None => mret tt
  | Some p =>
      modify (fun c =>
        if bool_decide (currentProgram c = Some p) then c
        else with_programs (delete p (programs c)) c)
  end.

Definition useProgram (program : option nat) : GLM unit :=
  modify (fun c =>
    match program with
    | None => with_currentProgram None c
    | Some p =>
        match programs c !! p with
        | Some pr => if prLinkStatus pr then with_currentProgram (Some p) c else c
        | None => c
        end
    end).

Definition getAttribLocation (program : option nat) (name : string) : GLM Z :=
  p ← nonnull program;
  c ← get;
  mret (match programs c !! p with
        | Some pr => if prLinkStatus pr then drvAttribLocation (driver c) name else -1
        | None => -1
        end).

Definition createBuffer : GLM (option nat) :=
  n ← newName;
  modify (fun c => with_buffers (<[n := NoData]> (buffers c)) c);;
  mret (Some n).

Definition bindBuffer (target : BufferTarget) (buffer : option nat) : GLM unit :=
  modify (fun c =>
    let valid := match buffer with
                 | Some b => bool_decide (is_Some (buffers c !! b))
                 | None => true
                 end in
    if valid then
      match target with
      | ARRAY_BUFFER => with_arrayBufferBinding buffer c
      | ELEMENT_ARRAY_BUFFER => with_elementArrayBufferBinding buffer c
      end
    else c).

Definition bufferData (target : BufferTarget) (data : TypedArray) : GLM unit :=
  modify (fun c =>
    let bound := match target with
                 | ARRAY_BUFFER => arrayBufferBinding c
                 | ELEMENT_ARRAY_BUFFER => elementArrayBufferBinding c
                 end in
    match bound with
    | Some b => with_buffers (<[b := data]> (buffers c)) c
    | None => c
    end).

Definition createTexture : GLM (option nat) :=
  n ← newName;
  modify (fun c => with_textures (<[n := defaultTexture]> (textures c)) c);;
  mret (Some n).

Definition activeTexture (texUnit : nat) : GLM unit :=
  modify (with_activeUnit texUnit).

(** [bindTexture(gl.TEXTURE_2D, texture)] *)
Definition bindTexture (texture : option nat) : GLM unit :=
  modify (fun c =>
    match texture with
    | None => with_textureBindings (delete (activeUnit c) (textureBindings c)) c
    | Some t =>
        if bool_decide (is_Some (textures c !! t))
        then with_textureBindings (<[activeUnit c := t]> (textureBindings c)) c
        else c
    end).

(** The texture bound to TEXTURE_2D on the active unit. *)
Definition boundTexture (c : Context) : option nat :=
  textureBindings c !! activeUnit c.

(** [texParameteri(gl.TEXTURE_2D, pname, value)] *)
Definition texParameteri (pname : TexParam) (v : TexParamValue) : GLM unit :=
  modify (fun c =>
    match boundTexture c with
    | Some t => with_textures (alter (setTexParam pname v) t (textures c)) c
    | None => c
    end).

(** [texImage2D(gl.TEXTURE_2D, level, internalFormat, width, height,
    border, format, type, pixels)]: the array must hold the whole
    image, four bytes a pixel for RGBA/UNSIGNED_BYTE. *)
Definition texImage2D (level : Z) (internalFormat : PixelFormat)
    (width height border : Z) (format : PixelFormat) (type : GLType)
    (pixels : TypedArray) : GLM unit :=
  modify (fun c =>
    match boundTexture c with
    | Some t =>
        if bool_decide (0 <= level) && bool_decide (0 <= width)
           && bool_decide (0 <= height) && bool_decide (border = 0)
           && bool_decide (width * height * 4 <= Z.of_nat (elements pixels))
        then with_textures
               (alter (setTexLevel level
                         {| tiWidth := width; tiHeight := height;
                            tiSource := Pixels pixels |}) t (textures c)) c
        else c
    | None => c
    end).

(** [texImage2D(gl.TEXTURE_2D, level, internalFormat, format, type, image)]
    for an image element of natural size [w] x [h]. *)
Definition texImage2D_image (level : Z) (internalFormat format : PixelFormat)
    (type : GLType) (w h : Z) : GLM unit :=
  modify (fun c =>
    match boundTexture c with
    | Some t =>
        if bool_decide (0 <= level)
        then with_textures
               (alter (setTexLevel level
                         {| tiWidth := w; tiHeight := h;
                            tiSource := FromImage w h |}) t (textures c)) c
        else c
    | None => c
    end).

(** [vertexAttribPointer(index, size, type, false, 0, 0)]: a negative
    location is out of range as a GLuint; with no ARRAY_BUFFER bound the
    call is rejected. *)
Definition vertexAttribPointer (index size : Z) (type : GLType) : GLM unit :=
  modify (fun c =>
    if bool_decide (0 <= index) then
      match arrayBufferBinding c with
      | Some b =>
          let old := default defaultAttrib (vertexAttribs c !! index) in
          with_vertexAttribs
            (<[index := {| vaBuffer := Some b; vaSize := size;
                           vaEnabled := vaEnabled old |}]> (vertexAttribs c)) c
      | None => c
      end
    else c).

Definition enableVertexAttribArray (index : Z) : GLM unit :=
  modify (fun c =>
    if bool_decide (0 <= index) then
      let old := default defaultAttrib (vertexAttribs c !! index) in
      with_vertexAttribs
        (<[index := {| vaBuffer := vaBuffer old; vaSize := vaSize old;
                       vaEnabled := true |}]> (vertexAttribs c)) c
    else c).

(** The call is recorded with what it reads: the element buffer, the
    attribute arrays, the texture of unit 0 (the unit [uSampler] names)
    and the contents of the buffer and texture objects. *)
Definition drawElements (mode : DrawMode) (count : Z) (type : GLType)
    (offset : Z) : GLM unit :=
  modify (fun c =>
    with_drawCalls
      (drawCalls c ++
         [{| dcMode := mode; dcCount := count; dcType := type; dcOffset := offset;
             dcElementBuffer := elementArrayBufferBinding c;
             dcAttribs := vertexAttribs c;
             dcTexture := textureBindings c !! 0%nat;
             dcBuffers := buffers c; dcTextures := textures c |}]) c).

End gl.

(** [console.error(label, text)] *)
Definition console_error (label text : string) : GLM unit :=
  modify (fun c => with_console (console c ++ [(label, text)]) c).

(** ** The script: shader helpers *)

Definition loadShader (type : ShaderType) (source : string) : GLM (option nat) :=
  shader ← gl.createShader type;
  gl.shaderSource shader source;;
  gl.compileShader shader;;
  status ← gl.getShaderParameter_COMPILE_STATUS shader;
  if negb status then
    log ← gl.getShaderInfoLog shader;
    console_error "Error compiling shader" log;;
    gl.deleteShader shader;;
    mret None
  else
    mret shader.

Definition createProgram (vertexShader fragmentShader : option nat) : GLM (option nat) :=
  program ← gl.createProgram;
  gl.attachShader program vertexShader;;
  gl.attachShader program fragmentShader;;
  gl.linkProgram program;;
  status ← gl.getProgramParameter_LINK_STATUS program;
  if negb status then
    log ← gl.getProgramInfoLog program;
    console_error "Error linking program" log;;
    gl.deleteProgram program;;
    mret None
  else
    mret program.

(** ** The script: page state

    [main] builds the seven sliders, the image element and the WebGL
    objects, installs the handlers and renders once. What the handlers
    close over is the record [App]. *)

Record Slider := {
  posInImageXPercent : option float;
  posInImageYPercent : option float;
  styleLeft : option float;
  styleTop : option float;
}.

(** The layout and size attributes of the image element the script reads. *)
Record Image := {
  offsetLeft : Z;
  offsetTop : Z;
  width : Z;
  height : Z;
}.

Record ProgramInfo := {
  aPos : Z;
  aTexCoord : Z;
}.

Record App := {
  ctx : Context;
  sliders : list Slider;
  dragging : option nat;
  image : Image;
  programInfo : ProgramInfo;
  posBuffer : option nat;
  texCoordBuffer : option nat;
  indexBuffer : option nat;
  texture : option nat;
  overlay : list (float * float * float * float);
}.

Definition with_ctx (v : Context) (a : App) : App :=
  Build_App v (sliders a) (dragging a) (image a) (programInfo a) (posBuffer a)
    (texCoordBuffer a) (indexBuffer a) (texture a) (overlay a).
Definition with_sliders (v : list Slider) (a : App) : App :=
  Build_App (ctx a) v (dragging a) (image a) (programInfo a) (posBuffer a)
    (texCoordBuffer a) (indexBuffer a) (texture a) (overlay a).
Definition with_dragging (v : option nat) (a : App) : App :=
  Build_App (ctx a) (sliders a) v (image a) (programInfo a) (posBuffer a)
    (texCoordBuffer a) (indexBuffer a) (texture a) (overlay a).
Definition with_image (v : Image) (a : App) : App :=
  Build_App (ctx a) (sliders a) (dragging a) v (programInfo a) (posBuffer a)
    (texCoordBuffer a) (indexBuffer a) (texture a) (overlay a).
Definition with_overlay (v : list (float * float * float * float)) (a : App) : App :=
  Build_App (ctx a) (sliders a) (dragging a) (image a) (programInfo a) (posBuffer a)
    (texCoordBuffer a) (indexBuffer a) (texture a) v.

Definition vertexShaderSource : string := "
    attribute vec4 aPos;
    attribute vec2 aTexCoord;

    uniform mat4 uModelMat;
    uniform mat4 uProjMat;

    varying vec2 vTexCoord;

    void main(void) {
      gl_Position = uProjMat * uModelMat * aPos;
      vTexCoord = aTexCoord;
    }
    ".

Definition fragmentShaderSource : string := "
    precision mediump float;

    uniform sampler2D uSampler;

    varying vec2 vTexCoord;

    void main(void) {
        gl_FragColor = texture2D(uSampler, vTexCoord);
    }
    ".

(** The data of the three buffers, as written in the script. *)
Definition posData : list float :=
  [ -1; -1; 1;
    1; -1; 1;
    -1; 1; 1;
    1; 1; 1;
    1; -1; -1;
    -1; 1; -1;
    1; 1; -1;
    1; 1; -1 ]%float.

Definition texCoordData : list float :=
  [ 0; 1;
    0.5; 1;
    0; 0.5;
    0.5; 0.5;
    1; 1;
    0; 0;
    0.5; 0;
    1; 0.5 ]%float.

Definition indexData : list Z :=
  [ 0; 2; 3; 0; 3; 1;
    2; 5; 6; 2; 6; 3;
    1; 3; 7; 1; 7; 4 ].

Definition pixel : TypedArray := new_Uint8Array [0; 0; 255; 255].

(** The slider a fresh [div] becomes: [style.left = "30px"], nothing else
    set. A length in [px] is held as its number. *)
Definition newSlider : Slider :=
  {| posInImageXPercent := None; posInImageYPercent := None;
     styleLeft := Some 30%float; styleTop := None |}.

(** Assigning [n + "px"] to a style property: a declaration that does not
    parse ([NaNpx], [Infinitypx]) is dropped and the old value stays. *)
Definition setPx (old : option float) (n : float) : option float :=
  if JS.is_finite n then Some n else old.

Definition canvasSize : float := 512%float.

Definition sliderLinePairs : list (nat * nat) := [(0%nat, 1%nat)].

(** ** The script: [render] *)

Definition renderGL (a : App) : GLM unit :=
  gl.bindBuffer ARRAY_BUFFER (posBuffer a);;
  gl.vertexAttribPointer (aPos (programInfo a)) 3 FLOAT;;
  gl.enableVertexAttribArray (aPos (programInfo a));;
  gl.bindBuffer ARRAY_BUFFER (texCoordBuffer a);;
  gl.vertexAttribPointer (aTexCoord (programInfo a)) 2 FLOAT;;
  gl.enableVertexAttribArray (aTexCoord (programInfo a));;
  gl.bindBuffer ELEMENT_ARRAY_BUFFER (indexBuffer a);;
  gl.activeTexture 0%nat;;
  gl.bindTexture (texture a);;
  gl.drawElements TRIANGLES 18 UNSIGNED_SHORT 0.

(** The segments stroked on the 2D canvas after [clearRect]: one for each
    pair of [sliderLinePairs], between the two sliders' stored fractions
    scaled to the canvas. *)
Definition renderLines (sl : list Slider) : list (float * float * float * float) :=
  omap (fun '(index1, index2) =>
    match sl !! index1, sl !! index2 with
    | Some slider1, Some slider2 =>
        Some (PrimFloat.mul (JS.to_number (posInImageXPercent slider1)) canvasSize,
              PrimFloat.mul (JS.to_number (posInImageYPercent slider1)) canvasSize,
              PrimFloat.mul (JS.to_number (posInImageXPercent slider2)) canvasSize,
              PrimFloat.mul (JS.to_number (posInImageYPercent slider2)) canvasSize)
    | _, _ => None
    end) sliderLinePairs.

Definition render (a : App) : App :=
  with_ctx (exec (renderGL a) (ctx a)) (with_overlay (renderLines (sliders a)) a).

(** ** The script: [main] *)

Definition setup : GLM App :=
  vertexShader ← loadShader VERTEX_SHADER vertexShaderSource;
  fragmentShader ← loadShader FRAGMENT_SHADER fragmentShaderSource;
  program ← createProgram vertexShader fragmentShader;
  gl.useProgram program;;
  aPos ← gl.getAttribLocation program "aPos";
  aTexCoord ← gl.getAttribLocation program "aTexCoord";
  posBuffer ← gl.createBuffer;
  gl.bindBuffer ARRAY_BUFFER posBuffer;;
  gl.bufferData ARRAY_BUFFER (new_Float32Array posData);;
  texCoordBuffer ← gl.createBuffer;
  gl.bindBuffer ARRAY_BUFFER texCoordBuffer;;
  gl.bufferData ARRAY_BUFFER (new_Float32Array texCoordData);;
  indexBuffer ← gl.createBuffer;
  gl.bindBuffer ELEMENT_ARRAY_BUFFER indexBuffer;;
  gl.bufferData ELEMENT_ARRAY_BUFFER (new_Uint16Array indexData);;
  texture ← gl.createTexture;
  gl.bindTexture texture;;
  gl.texParameteri TEXTURE_WRAP_S CLAMP_TO_EDGE;;
  gl.texParameteri TEXTURE_WRAP_T CLAMP_TO_EDGE;;
  gl.texParameteri TEXTURE_MIN_FILTER LINEAR;;
  gl.texParameteri TEXTURE_MAG_FILTER LINEAR;;
  gl.texImage2D 0 RGBA 1 1 0 RGBA UNSIGNED_BYTE pixel;;
  c ← get;
  mret {| ctx := c;
          sliders := replicate 7 newSlider;
          dragging := None;
          image := {| offsetLeft := 0; offsetTop := 0; width := 0; height := 0 |};
          programInfo := {| aPos := aPos; aTexCoord := aTexCoord |};
          posBuffer := posBuffer; texCoordBuffer := texCoordBuffer;
          indexBuffer := indexBuffer; texture := texture;
          overlay := [] |}.

(** [main] on the context the canvas hands out (with none, the script
    returns at once): an exception thrown during the set-up leaves the page
    without its first frame. *)
Definition main (drv : Driver) : result App :=
  match setup (newContext drv) with
  | (Return a, _) => Return (render a)
  | (Throw e, _) => Throw e
  end.

(** ** The script: handlers *)

(** [slider.onmousedown] of slider [i]: [dragging] is that slider. *)
Definition onmousedown (i : nat) (a : App) : App :=
  if bool_decide (i < length (sliders a))%nat then with_dragging (Some i) a else a.

Definition onmouseup (a : App) : App := with_dragging None a.

(** [document.body.onmousemove] *)
Definition onmousemove (clientX clientY : Z) (a : App) : App :=
  match dragging a with
  | None => a
  | Some i =>
      match sliders a !! i with
      | None => a
      | Some slider =>
          let clientCenterX := JS.of_long clientX in
          let clientCenterY := JS.of_long clientY in
          let imageTopLeftX := JS.of_long (offsetLeft (image a)) in
          let imageTopLeftY := JS.of_long (offsetTop (image a)) in
          let imageWidth := JS.of_long (width (image a)) in
          let imageHeight := JS.of_long (height (image a)) in
          let posInImageX := PrimFloat.sub clientCenterX imageTopLeftX in
          let posInImageY := PrimFloat.sub clientCenterY imageTopLeftY in
          let clampedClientCenterX :=
            JS.math_max imageTopLeftX
              (JS.math_min (PrimFloat.add imageTopLeftX imageWidth) clientCenterX) in
          let clampedClientCenterY :=
            JS.math_max imageTopLeftY
              (JS.math_min (PrimFloat.add imageTopLeftY imageHeight) clientCenterY) in
          let slider' :=
            {| posInImageXPercent := Some (PrimFloat.div posInImageX imageWidth);
               posInImageYPercent := Some (PrimFloat.div posInImageY imageHeight);
               styleLeft := setPx (styleLeft slider) (PrimFloat.sub clampedClientCenterX 5);
               styleTop := setPx (styleTop slider) (PrimFloat.sub clampedClientCenterY 5) |} in
          render (with_sliders (<[i := slider']> (sliders a)) a)
      end
  end.

(** [image.onload], once the element has decoded an image and has the
    attributes [img]. *)
Definition onload (img : Image) (a : App) : App :=
  let a := with_image img a in
  render (with_ctx
    (exec (gl.bindTexture (texture a);;
           gl.texImage2D_image 0 RGBA RGBA UNSIGNED_BYTE (width img) (height img))
          (ctx a)) a).

Inductive Event :=
  | MouseDown (i : nat)
  | MouseMove (clientX clientY : Z)
  | MouseUp
  | ImageLoad (img : Image).

Definition handle (e : Event) (a : App) : App :=
  match e with
  | MouseDown i => onmousedown i a
  | MouseMove x y => onmousemove x y a
  | MouseUp => onmouseup a
  | ImageLoad img => onload img a
  end.

Definition run (es : list Event) (a : App) : App := foldl (fun a e => handle e a) a es.

(** The states of the page: what [main] returns, and what the handlers
    make of it. *)
Inductive reachable (drv : Driver) : App -> Prop :=
  | reachable_main a : main drv = Return a -> reachable drv a
  | reachable_handle a e : reachable drv a -> reachable drv (handle e a).

(** ** Drivers, observations and invariants used in the statements *)

(** The shader objects the two [loadShader] calls of [main] leave when the
    compiler accepts both sources. *)
Definition vertexShaderObject (drv : Driver) : Shader :=
  {| shType := VERTEX_SHADER; shSource := vertexShaderSource;
     shCompileStatus := true;
     shInfoLog := snd (drvCompile drv VERTEX_SHADER vertexShaderSource) |}.
Definition fragmentShaderObject (drv : Driver) : Shader :=
  {| shType := FRAGMENT_SHADER; shSource := fragmentShaderSource;
     shCompileStatus := true;
     shInfoLog := snd (drvCompile drv FRAGMENT_SHADER fragmentShaderSource) |}.

(** The platform compiles both shaders of the script and links them. *)
Definition DriverOk (drv : Driver) : Prop :=
  fst (drvCompile drv VERTEX_SHADER vertexShaderSource) = true /\
  fst (drvCompile drv FRAGMENT_SHADER fragmentShaderSource) = true /\
  fst (drvLink drv [vertexShaderObject drv; fragmentShaderObject drv]) = true.

(** Sample platforms: one that accepts everything and puts [aPos] at
    location 0 and [aTexCoord] at 1; one whose compiler rejects every source
    with the text [msg]; one whose linker rejects every program with [msg]. *)
Definition okDriver : Driver :=
  {| drvCompile := fun _ _ => (true, EmptyString);
     drvLink := fun _ => (true, EmptyString);
     drvAttribLocation := fun name => if String.eqb name "aPos" then 0 else 1 |}.
Definition failCompile (msg : string) : Driver :=
  {| drvCompile := fun _ _ => (false, msg);
     drvLink := fun _ => (true, EmptyString);
     drvAttribLocation := fun _ => -1 |}.
Definition failLink (msg : string) : Driver :=
  {| drvCompile := fun _ _ => (true, EmptyString);
     drvLink := fun _ => (false, msg);
     drvAttribLocation := fun _ => -1 |}.

(** The page [main] builds on the sample platform. *)
Definition page0 : App :=
  match main okDriver with
  | Return a => a
  | Throw _ =>
      {| ctx := newContext okDriver; sliders := []; dragging := None;
         image := {| offsetLeft := 0; offsetTop := 0; width := 0; height := 0 |};
         programInfo := {| aPos := -1; aTexCoord := -1 |};
         posBuffer := None; texCoordBuffer := None; indexBuffer := None;
         texture := None; overlay := [] |}
  end.

(** A 400 x 400 image laid out at the page origin. *)
Definition image400 : Image :=
  {| offsetLeft := 0; offsetTop := 0; width := 400; height := 400 |}.

(** The name the next object gets is not in use. *)
Definition Fresh (c : Context) : Prop :=
  shaders c !! nextName c = None /\
  programs c !! nextName c = None /\
  currentProgram c <> Some (nextName c) /\
  isAttached (nextName c) c = false.

(** The names [main] gives its objects: the shaders are 0 and 1, the
    program 2. *)
Definition posName : nat := 3.
Definition texCoordName : nat := 4.
Definition indexName : nat := 5.
Definition textureName : nat := 6.

Definition initialBuffers : gmap nat TypedArray :=
  <[indexName := Uint16Array indexData]>
    (<[texCoordName := Float32Array texCoordData]>
       (<[posName := Float32Array posData]> ∅)).

Definition placeholderTexture : Texture :=
  {| txWrapS := CLAMP_TO_EDGE; txWrapT := CLAMP_TO_EDGE;
     txMinFilter := LINEAR; txMagFilter := LINEAR;
     txLevels := {[ 0 := {| tiWidth := 1; tiHeight := 1;
                            tiSource := Pixels (Uint8Array [0; 0; 255; 255]) |} ]} |}.

(** The fraction pair marker [m] stores, once both are set. *)
Definition markerFraction (a : App) (m : nat) : option (float * float) :=
  slider ← sliders a !! m;
  x ← posInImageXPercent slider;
  y ← posInImageYPercent slider;
  Some (x, y).

(** The floats a draw call reads for the attribute at location [loc]. *)
Definition attribData (d : DrawCall) (loc : Z) : option (list float) :=
  va ← dcAttribs d !! loc;
  b ← vaBuffer va;
  match dcBuffers d !! b with
  | Some (Float32Array l) => Some l
  | _ => None
  end.

(** The texCoord buffer the latest draw call used, and the pair it holds
    for vertex [v]. *)
Definition drawnTexCoords (a : App) : option (list float) :=
  d ← last (drawCalls (ctx a));
  attribData d (aTexCoord (programInfo a)).

Definition vertexTexCoord (a : App) (v : nat) : option (float * float) :=
  l ← drawnTexCoords a;
  x ← l !! (2 * v)%nat;
  y ← l !! (2 * v + 1)%nat;
  Some (x, y).

(** Texture completeness in WebGL 1.0: level 0 is defined and not empty; a
    mipmapping filter needs the whole chain (here: only a 1 x 1 level 0 is
    a whole chain, the script defines no other level); a size that is not
    a power of two needs edge clamping and a filter without mipmaps. *)
Definition isPowerOfTwo (n : Z) : bool :=
  bool_decide (0 < n) && bool_decide (Z.land n (n - 1) = 0).

Definition usesMipmaps (f : TexParamValue) : bool :=
  match f with NEAREST_MIPMAP_LINEAR => true | _ => false end.

Definition textureComplete (t : Texture) : bool :=
  match txLevels t !! 0 with
  | Some i =>
      bool_decide (0 < tiWidth i) && bool_decide (0 < tiHeight i)
      && (negb (usesMipmaps (txMinFilter t))
          || (bool_decide (tiWidth i = 1) && bool_decide (tiHeight i = 1)))
      && ((isPowerOfTwo (tiWidth i) && isPowerOfTwo (tiHeight i))
          || (bool_decide (txWrapS t = CLAMP_TO_EDGE)
              && bool_decide (txWrapT t = CLAMP_TO_EDGE)
              && negb (usesMipmaps (txMinFilter t))))
  | None => false
  end.

(** The texture of the page: whatever its level 0 holds, it has the
    parameters [main] set. *)
Definition pageTexture (t : Texture) : Prop :=
  txWrapS t = CLAMP_TO_EDGE /\ txWrapT t = CLAMP_TO_EDGE /\
  txMinFilter t = LINEAR /\ txMagFilter t = LINEAR.

(** An enabled attribute array that reads [size] floats a vertex from
    buffer [b]. *)
Definition sourceAttrib (b : nat) (size : Z) : VertexAttrib :=
  {| vaBuffer := Some b; vaSize := size; vaEnabled := true |}.

Definition pageAttrib (va : VertexAttrib) : Prop :=
  va = sourceAttrib posName 3 \/ va = sourceAttrib texCoordName 2.

(** Vertex [i] lies inside the buffer an enabled attribute array reads. *)
Definition attribCovers (bufs : gmap nat TypedArray) (i : Z) (va : VertexAttrib) : Prop :=
  vaEnabled va = true ->
  exists b l, vaBuffer va = Some b /\ bufs !! b = Some (Float32Array l) /\
              (i + 1) * vaSize va <= Z.of_nat (length l).

(** A draw call whose every index names a vertex of every enabled array. *)
Definition drawInRange (d : DrawCall) : Prop :=
  exists ib l, dcElementBuffer d = Some ib /\ dcBuffers d !! ib = Some (Uint16Array l) /\
    0 <= dcOffset d /\ dcOffset d `div` 2 + dcCount d <= Z.of_nat (length l) /\
    Forall (fun i => 0 <= i /\ map_Forall (fun _ va => attribCovers (dcBuffers d) i va) (dcAttribs d))
      (take (Z.to_nat (dcCount d)) (drop (Z.to_nat (dcOffset d `div` 2)) l)).

(** What every draw call of the page has read. *)
Record PageDraw (tcLoc : Z) (d : DrawCall) : Prop := {
  pd_mode : dcMode d = TRIANGLES;
  pd_count : dcCount d = 18;
  pd_type : dcType d = UNSIGNED_SHORT;
  pd_offset : dcOffset d = 0;
  pd_elements : dcElementBuffer d = Some indexName;
  pd_buffers : dcBuffers d = initialBuffers;
  pd_texture : dcTexture d = Some textureName;
  pd_textures : exists t, dcTextures d = {[ textureName := t ]} /\ pageTexture t;
  pd_attribs : map_Forall (fun _ va => pageAttrib va) (dcAttribs d);
  pd_texCoord : 0 <= tcLoc -> dcAttribs d !! tcLoc = Some (sourceAttrib texCoordName 2);
}.

(** The invariant of the page. *)
Record PageInv (drv : Driver) (a : App) : Prop := {
  inv_pos : posBuffer a = Some posName;
  inv_texCoord : texCoordBuffer a = Some texCoordName;
  inv_index : indexBuffer a = Some indexName;
  inv_texture : texture a = Some textureName;
  inv_info : programInfo a =
    {| aPos := drvAttribLocation drv "aPos";
       aTexCoord := drvAttribLocation drv "aTexCoord" |};
  inv_buffers : buffers (ctx a) = initialBuffers;
  inv_textures : exists t, textures (ctx a) = {[ textureName := t ]} /\ pageTexture t;
  inv_sliders : length (sliders a) = 7%nat;
  inv_dragging : forall i, dragging a = Some i -> (i < 7)%nat;
  inv_attribs : map_Forall (fun _ va => pageAttrib va) (vertexAttribs (ctx a));
  inv_draws : Forall (PageDraw (drvAttribLocation drv "aTexCoord")) (drawCalls (ctx a));
}.

(** The context and the page that the set-up of [main] leaves on a
    platform that compiles and links the shaders. *)
Definition setupContext (drv : Driver) : Context :=
  {| driver := drv; nextName := 7%nat;
     shaders := <[1%nat := fragmentShaderObject drv]>
                  (<[0%nat := vertexShaderObject drv]> ∅);
     programs := {[ 2%nat :=
       {| prAttached := [0%nat; 1%nat]; prLinkStatus := true;
          prInfoLog := snd (drvLink drv [vertexShaderObject drv;
                                          fragmentShaderObject drv]) |} ]};
     buffers := initialBuffers;
     textures := {[ textureName := placeholderTexture ]};
     arrayBufferBinding := Some texCoordName;
     elementArrayBufferBinding := Some indexName;
     activeUnit := 0%nat;
     textureBindings := {[ 0%nat := textureName ]};
     currentProgram := Some 2%nat;
     vertexAttribs := ∅; drawCalls := []; console := [] |}.

Definition setupApp (drv : Driver) : App :=
  {| ctx := setupContext drv;
     sliders := replicate 7 newSlider;
     dragging := None;
     image := {| offsetLeft := 0; offsetTop := 0; width := 0; height := 0 |};
     programInfo := {| aPos := drvAttribLocation drv "aPos";
                       aTexCoord := drvAttribLocation drv "aTexCoord" |};
     posBuffer := Some posName; texCoordBuffer := Some texCoordName;
     indexBuffer := Some indexName; texture := Some textureName;
     overlay := [] |}.

(** A call that only updates the context, and one that keeps the buffer,
    texture and program objects and the program in use as they are. *)
Definition updates (op : GLM unit) : Prop :=
  forall c, op c = (Return tt, exec op c).

Definition keeps (op : GLM unit) : Prop :=
  forall c, buffers (exec op c) = buffers c /\ textures (exec op c) = textures c /\
            programs (exec op c) = programs c /\
            currentProgram (exec op c) = currentProgram c.

(** A computation that ends with a draw call on record. *)
Definition draws (m : GLM unit) : Prop :=
  forall c, drawCalls (exec m c) <> [].

(** The context after the two [loadShader] calls of [main], when the
    compiler accepts both sources. *)
Definition shaderContext (drv : Driver) : Context :=
  with_shaders
    (<[1%nat := fragmentShaderObject drv]> (<[0%nat := vertexShaderObject drv]> ∅))
    (with_nextName 2 (newContext drv)).

(** ** More observations *)



(** A call that creates, deletes and compiles no object, keeps the program
    in use, logs nothing and keeps the set of texture objects. *)
Definition keepsObjects (op : GLM unit) : Prop :=
  forall c,
    nextName (exec op c) = nextName c /\
    shaders (exec op c) = shaders c /\
    programs (exec op c) = programs c /\
    buffers (exec op c) = buffers c /\
    currentProgram (exec op c) = currentProgram c /\
    console (exec op c) = console c /\
    dom (textures (exec op c)) = dom (textures c).

(** Pointer moves through the given positions. *)
Definition moves (ps : list (Z * Z)) : list Event :=
  (fun p => MouseMove (fst p) (snd p)) <$> ps.


(** Every name from the counter on is unused: no object has it, no program
    has it attached and it is not the program in use. *)
Definition WellNamed (c : Context) : Prop :=
  forall n, (nextName c <= n)%nat ->
    shaders c !! n = None /\
    programs c !! n = None /\
    currentProgram c <> Some n /\
    forall p pr, programs c !! p = Some pr -> n ∉ prAttached pr.

(** A console entry of one of the two shader helpers. *)
Definition shaderDiagnostic (entry : string * string) : Prop :=
  fst entry = "Error compiling shader" \/ fst entry = "Error linking program".






(** ** The static variants of the script

    The two other files of the repository render one fixed scene with the
    same helpers and the same context calls. They have no markers and no
    2D canvas: of the page state only the context, the image and the handles
    are in use, the list of sliders is empty. *)

(** *** The static cube net: the eight-vertex scene with the placeholder
    texture and the image load, without markers *)

Module StaticNet.

Definition posData : list float :=
  [ 1; -1; -1;
    1; -1; 1;
    1; 1; -1;
    1; 1; 1;
    -1; -1; 1;
    -1; 1; -1;
    -1; 1; 1;
    -1; 1; 1 ]%float.

Definition render (a : App) : App :=
  with_ctx (exec (renderGL a) (ctx a)) a.

Definition setup : GLM App :=
  vertexShader ← loadShader VERTEX_SHADER vertexShaderSource;
  fragmentShader ← loadShader FRAGMENT_SHADER fragmentShaderSource;
  program ← createProgram vertexShader fragmentShader;
  gl.useProgram program;;
  aPos ← gl.getAttribLocation program "aPos";
  aTexCoord ← gl.getAttribLocation program "aTexCoord";
  posBuffer ← gl.createBuffer;
  gl.bindBuffer ARRAY_BUFFER posBuffer;;
  gl.bufferData ARRAY_BUFFER (new_Float32Array posData);;
  texCoordBuffer ← gl.createBuffer;
  gl.bindBuffer ARRAY_BUFFER texCoordBuffer;;
  gl.bufferData ARRAY_BUFFER (new_Float32Array texCoordData);;
  indexBuffer ← gl.createBuffer;
  gl.bindBuffer ELEMENT_ARRAY_BUFFER indexBuffer;;
  gl.bufferData ELEMENT_ARRAY_BUFFER (new_Uint16Array indexData);;
  texture ← gl.createTexture;
  gl.bindTexture texture;;
  gl.texParameteri TEXTURE_WRAP_S CLAMP_TO_EDGE;;
  gl.texParameteri TEXTURE_WRAP_T CLAMP_TO_EDGE;;
  gl.texParameteri TEXTURE_MIN_FILTER LINEAR;;
  gl.texParameteri TEXTURE_MAG_FILTER LINEAR;;
  gl.texImage2D 0 RGBA 1 1 0 RGBA UNSIGNED_BYTE pixel;;
  c ← get;
  mret {| ctx := c;
          sliders := [];
          dragging := None;
          image := {| offsetLeft := 0; offsetTop := 0; width := 0; height := 0 |};
          programInfo := {| aPos := aPos; aTexCoord := aTexCoord |};
          posBuffer := posBuffer; texCoordBuffer := texCoordBuffer;
          indexBuffer := indexBuffer; texture := texture;
          overlay := [] |}.

Definition main (drv : Driver) : result App :=
  match setup (newContext drv) with
  | (Return a, _) => Return (render a)
  | (Throw e, _) => Throw e
  end.

(** [image.onload] *)
Definition onload (img : Image) (a : App) : App :=
  let a := with_image img a in
  render (with_ctx
    (exec (gl.bindTexture (texture a);;
           gl.texImage2D_image 0 RGBA RGBA UNSIGNED_BYTE (width img) (height img))
          (ctx a)) a).

(** The page after [main] and any number of image loads. *)
Inductive reachable (drv : Driver) : App -> Prop :=
  | reachable_main a : main drv = Return a -> reachable drv a
  | reachable_onload a img : reachable drv a -> reachable drv (onload img a).

End StaticNet.

(** *** The full cube: 24 vertices, four a face, drawn once, with a tinted
    fragment shader and no texture *)

Module Cube24.

Definition fragmentShaderSource : string := "
    precision mediump float;

    uniform sampler2D uSampler;

    varying vec2 vTexCoord;

    void main(void) {
        gl_FragColor = texture2D(uSampler, vTexCoord) + vec4(1.0, 0.0, 0.0, 1.0);
    }
    ".

Definition posData : list float :=
  [ -1; -1; 1; 1; -1; 1; 1; 1; 1; -1; 1; 1;
    -1; -1; -1; -1; 1; -1; 1; 1; -1; 1; -1; -1;
    -1; 1; -1; -1; 1; 1; 1; 1; 1; 1; 1; -1;
    -1; -1; -1; 1; -1; -1; 1; -1; 1; -1; -1; 1;
    1; -1; -1; 1; 1; -1; 1; 1; 1; 1; -1; 1;
    -1; -1; -1; -1; -1; 1; -1; 1; 1; -1; 1; -1 ]%float.

Definition texCoordData : list float :=
  [ 0; 0; 0; 1; 1; 1; 1; 0;
    1; 0; 1; 1; 0; 1; 0; 0;
    0; 1; 0; 0; 1; 0; 1; 1;
    1; 1; 0; 1; 0; 0; 1; 0;
    1; 0; 1; 1; 0; 1; 0; 0;
    0; 0; 1; 0; 1; 1; 0; 1 ]%float.

Definition indexData : list Z :=
  [ 0; 1; 2; 0; 2; 3;
    4; 5; 6; 4; 6; 7;
    8; 9; 10; 8; 10; 11;
    12; 13; 14; 12; 14; 15;
    16; 17; 18; 16; 18; 19;
    20; 21; 22; 20; 22; 23 ].

(** [render]: the calls of the interactive script's [render], without the
    [bindTexture] (commented out in the file), for 36 indices. *)
Definition renderGL (a : App) : GLM unit :=
  gl.bindBuffer ARRAY_BUFFER (posBuffer a);;
  gl.vertexAttribPointer (aPos (programInfo a)) 3 FLOAT;;
  gl.enableVertexAttribArray (aPos (programInfo a));;
  gl.bindBuffer ARRAY_BUFFER (texCoordBuffer a);;
  gl.vertexAttribPointer (aTexCoord (programInfo a)) 2 FLOAT;;
  gl.enableVertexAttribArray (aTexCoord (programInfo a));;
  gl.bindBuffer ELEMENT_ARRAY_BUFFER (indexBuffer a);;
  gl.activeTexture 0%nat;;
  gl.drawElements TRIANGLES 36 UNSIGNED_SHORT 0.

Definition render (a : App) : App :=
  with_ctx (exec (renderGL a) (ctx a)) a.

Definition setup : GLM App :=
  vertexShader ← loadShader VERTEX_SHADER vertexShaderSource;
  fragmentShader ← loadShader FRAGMENT_SHADER fragmentShaderSource;
  program ← createProgram vertexShader fragmentShader;
  gl.useProgram program;;
  aPos ← gl.getAttribLocation program "aPos";
  aTexCoord ← gl.getAttribLocation program "aTexCoord";
  posBuffer ← gl.createBuffer;
  gl.bindBuffer ARRAY_BUFFER posBuffer;;
  gl.bufferData ARRAY_BUFFER (new_Float32Array posData);;
  texCoordBuffer ← gl.createBuffer;
  gl.bindBuffer ARRAY_BUFFER texCoordBuffer;;
  gl.bufferData ARRAY_BUFFER (new_Float32Array texCoordData);;
  indexBuffer ← gl.createBuffer;
  gl.bindBuffer ELEMENT_ARRAY_BUFFER indexBuffer;;
  gl.bufferData ELEMENT_ARRAY_BUFFER (new_Uint16Array indexData);;
  c ← get;
  mret {| ctx := c;
          sliders := [];
          dragging := None;
          image := {| offsetLeft := 0; offsetTop := 0; width := 0; height := 0 |};
          programInfo := {| aPos := aPos; aTexCoord := aTexCoord |};
          posBuffer := posBuffer; texCoordBuffer := texCoordBuffer;
          indexBuffer := indexBuffer; texture := None;
          overlay := [] |}.

Definition main (drv : Driver) : result App :=
  match setup (newContext drv) with
  | (Return a, _) => Return (render a)
  | (Throw e, _) => Throw e
  end.

(** The shader object of the tinted fragment shader, once compiled. *)
Definition fragmentShaderObject (drv : Driver) : Shader :=
  {| shType := FRAGMENT_SHADER; shSource := fragmentShaderSource;
     shCompileStatus := true;
     shInfoLog := snd (drvCompile drv FRAGMENT_SHADER fragmentShaderSource) |}.

(** The platform compiles both shaders of this file and links them. *)
Definition DriverOk (drv : Driver) : Prop :=
  fst (drvCompile drv VERTEX_SHADER vertexShaderSource) = true /\
  fst (drvCompile drv FRAGMENT_SHADER fragmentShaderSource) = true /\
  fst (drvLink drv [vertexShaderObject drv; fragmentShaderObject drv]) = true.

End Cube24.

(** An enabled attribute array of a scene whose positions are in buffer
    [pb] and whose texture coordinates are in buffer [tb]. *)
Definition sceneAttrib (pb tb : nat) (va : VertexAttrib) : Prop :=
  va = sourceAttrib pb 3 \/ va = sourceAttrib tb 2.

(** The buffer objects of the static cube net: those of the interactive
    script with the other position table. *)
Definition staticBuffers : gmap nat TypedArray :=
  <[posName := Float32Array StaticNet.posData]> initialBuffers.

(** The invariant of the static cube net's page. *)
Record StaticInv (a : App) : Prop := {
  sinv_pos : posBuffer a = Some posName;
  sinv_texCoord : texCoordBuffer a = Some texCoordName;
  sinv_index : indexBuffer a = Some indexName;
  sinv_texture : texture a = Some textureName;
  sinv_sliders : sliders a = [];
  sinv_buffers : buffers (ctx a) = staticBuffers;
  sinv_textures : exists t, textures (ctx a) = {[ textureName := t ]} /\ pageTexture t;
  sinv_attribs :
    map_Forall (fun _ va => sceneAttrib posName texCoordName va) (vertexAttribs (ctx a));
  sinv_draws :
    Forall (fun d => dcMode d = TRIANGLES /\ dcCount d = 18 /\
                     dcTexture d = Some textureName /\ drawInRange d)
      (drawCalls (ctx a));
}.

(** * Proofs *)

(** ** Running the monad *)

Lemma bind_return {A B} (m : GLM A) (k : A -> GLM B) c x c' :
  m c = (Return x, c') -> (m ≫= k) c = k x c'.
Proof. intros H. unfold mbind, GLM_bind. rewrite H. reflexivity. Qed.

Lemma bind_throw {A B} (m : GLM A) (k : A -> GLM B) c e c' :
  m c = (Throw e, c') -> (m ≫= k) c = (Throw e, c').
Proof. intros H. unfold mbind, GLM_bind. rewrite H. reflexivity. Qed.

Lemma exec_modify_bind {B} f (m : GLM B) c : exec (modify f ;; m) c = exec m (f c).
Proof. reflexivity. Qed.

Lemma exec_modify f c : exec (modify f) c = f c.
Proof. reflexivity. Qed.

(** Projections of updated contexts. *)
Ltac ctx_simpl :=
  cbv beta;
  cbn [driver nextName shaders programs buffers textures arrayBufferBinding
       elementArrayBufferBinding activeUnit textureBindings currentProgram
       vertexAttribs drawCalls console
       with_nextName with_shaders with_programs with_buffers with_textures
       with_arrayBufferBinding with_elementArrayBufferBinding with_activeUnit
       with_textureBindings with_currentProgram with_vertexAttribs
       with_drawCalls with_console fst snd].

Ltac obj_simpl :=
  repeat (progress (ctx_simpl; rewrite ?lookup_insert_eq, ?insert_insert_eq;
                    cbn [shType shSource shCompileStatus shInfoLog
                         prAttached prLinkStatus prInfoLog negb])).

Ltac gl_step :=
  first [rewrite exec_modify_bind | rewrite exec_modify]; ctx_simpl.

(** ** [loadShader] *)

Lemma loadShader_run type source c :
  Fresh c ->
  loadShader type source c =
    let n := nextName c in
    let r := drvCompile (driver c) type source in
    if fst r then
      (Return (Some n),
       with_shaders (<[n := {| shType := type; shSource := source;
                               shCompileStatus := true; shInfoLog := snd r |}]> (shaders c))
         (with_nextName (S n) c))
    else
      (Return None,
       with_console (console c ++ [("Error compiling shader", snd r)])
         (with_nextName (S n) c)).
Proof.
  intros (Hs & _ & _ & Ha).
  unfold loadShader, gl.createShader, gl.shaderSource, gl.compileShader,
    gl.getShaderParameter_COMPILE_STATUS, gl.getShaderInfoLog, gl.deleteShader,
    console_error, newName, nonnull, get, modify, mbind, mret, GLM_bind, GLM_ret.
  obj_simpl.
  destruct (drvCompile (driver c) type source) as [[|] log]; obj_simpl.
  - reflexivity.
  - unfold isAttached in *. ctx_simpl. rewrite Ha.
    rewrite delete_insert_id by exact Hs. reflexivity.
Qed.

(** ** Numbers *)

(** A quotient by zero is never finite: it is NaN or an infinity. *)
Lemma div_zero_not_finite x :
  JS.is_finite (PrimFloat.div x (JS.of_long 0)) = false.
Proof.
  unfold JS.is_finite, JS.of_long, PrimFloat.is_nan, PrimFloat.is_infinity.
  rewrite !FloatAxioms.eqb_spec, FloatAxioms.abs_spec, FloatAxioms.div_spec.
  replace (Prim2SF PrimFloat.zero) with (S754_zero false) by (vm_compute; reflexivity).
  replace (Prim2SF PrimFloat.infinity) with (S754_infinity false) by (vm_compute; reflexivity).
  destruct (Prim2SF x) as [[]|[]| |[] m e]; reflexivity.
Qed.

(** Two fraction pairs differ when a comparison tells them apart. *)
Lemma fraction_neq (x y x' y' : float) :
  PrimFloat.eqb x x' && PrimFloat.eqb y y' = false ->
  PrimFloat.eqb x' x' && PrimFloat.eqb y' y' = true ->
  Some (x, y) <> Some (x', y').
Proof. intros H1 H2 E. assert (x = x' /\ y = y') as [-> ->] by (split; congruence). congruence. Qed.

Lemma setPx_idem old n : setPx (setPx old n) n = setPx old n.
Proof. unfold setPx. destruct (JS.is_finite n); reflexivity. Qed.

(** ** [createProgram] *)

Lemma createProgram_run vs fs shv shf c :
  Fresh c ->
  shaders c !! vs = Some shv -> shaders c !! fs = Some shf ->
  shType shv <> shType shf ->
  createProgram (Some vs) (Some fs) c =
    let p := nextName c in
    let r := drvLink (driver c) [shv; shf] in
    if fst r then
      (Return (Some p),
       with_programs (<[p := {| prAttached := [vs; fs]; prLinkStatus := true;
                                prInfoLog := snd r |}]> (programs c))
         (with_nextName (S p) c))
    else
      (Return None,
       with_console (console c ++ [("Error linking program", snd r)])
         (with_nextName (S p) c)).
Proof.
  intros (_ & Hp & Hc & _) Hv Hf Hne.
  unfold createProgram, gl.createProgram, gl.attachShader, gl.linkProgram,
    gl.getProgramParameter_LINK_STATUS, gl.getProgramInfoLog, gl.deleteProgram,
    console_error, newName, nonnull, get, modify, mbind, mret, GLM_bind, GLM_ret.
  obj_simpl. rewrite Hv. cbn [existsb app]. obj_simpl.
  rewrite Hf. cbn [existsb app]. rewrite Hv. obj_simpl.
  rewrite (bool_decide_eq_false_2 _ Hne). cbn [orb]. obj_simpl.
  cbn [omap list_omap]. rewrite Hv, Hf. cbn [omap list_omap].
  destruct (drvLink (driver c) [shv; shf]) as [[|] log]; obj_simpl.
  - reflexivity.
  - rewrite (bool_decide_eq_false_2 _ Hc).
    rewrite delete_insert_id by exact Hp. reflexivity.
Qed.

(** A [null] shader makes [attachShader] throw: the program object just
    created stays behind. *)
Lemma createProgram_null_vertex fs c :
  exists c', createProgram None fs c = (Throw "TypeError", c').
Proof. eexists. reflexivity. Qed.

Lemma createProgram_null_fragment vs c :
  exists c', createProgram (Some vs) None c = (Throw "TypeError", c').
Proof. eexists. reflexivity. Qed.

(** ** [main] *)

Lemma Fresh_newContext drv : Fresh (newContext drv).
Proof. repeat split; try reflexivity. discriminate. Qed.

(** One step of [setup]: the first call of the sequence is a [loadShader]
    whose compile status is given by [H], or the [createProgram] whose link
    status is given by [H]. *)
Ltac fresh_names := repeat split; try reflexivity; discriminate.

Ltac load_step H :=
  erewrite bind_return;
  [ | rewrite loadShader_run;
      [ cbv zeta; ctx_simpl; cbn [driver newContext]; rewrite H; reflexivity
      | fresh_names ] ].

Ltac link_step drv H :=
  erewrite bind_return;
  [ | ctx_simpl; cbn [nextName newContext];
      erewrite createProgram_run;
      [ cbv zeta; ctx_simpl; cbn [driver newContext];
        fold (vertexShaderObject drv); fold (fragmentShaderObject drv);
        rewrite H; reflexivity
      | fresh_names | reflexivity | reflexivity | discriminate ] ].

Lemma setup_ok drv :
  DriverOk drv -> setup (newContext drv) = (Return (setupApp drv), setupContext drv).
Proof.
  intros (H1 & H2 & H3). unfold setup.
  load_step H1. load_step H2. link_step drv H3.
  vm_compute. reflexivity.
Qed.

(** When the compiler or the linker rejects the shaders, [main] does not
    get past the set-up: a [null] shader makes [attachShader] throw, a
    [null] program makes [getAttribLocation] throw. *)
Lemma setup_throws drv :
  ~ DriverOk drv -> exists e c, setup (newContext drv) = (Throw e, c).
Proof.
  intros Hno. unfold setup.
  destruct (fst (drvCompile drv VERTEX_SHADER vertexShaderSource)) eqn:H1.
  - load_step H1.
    destruct (fst (drvCompile drv FRAGMENT_SHADER fragmentShaderSource)) eqn:H2.
    + load_step H2.
      destruct (fst (drvLink drv [vertexShaderObject drv; fragmentShaderObject drv])) eqn:H3.
      { exfalso. apply Hno. repeat split; assumption. }
      link_step drv H3.
      eexists _, _. reflexivity.
    + load_step H2.
      ctx_simpl. cbn [nextName newContext].
      edestruct createProgram_null_fragment as [c' Hc'].
      erewrite bind_throw by exact Hc'. eexists _, _. reflexivity.
  - load_step H1.
    match goal with
    | |- context [(loadShader ?t ?s ≫= ?k) ?c0] =>
        destruct (loadShader t s c0) as [[fs|e] c1] eqn:E
    end.
    + erewrite bind_return by exact E.
      edestruct createProgram_null_vertex as [c' Hc'].
      erewrite bind_throw by exact Hc'. eexists _, _. reflexivity.
    + erewrite bind_throw by exact E. eexists _, _. reflexivity.
Qed.

Lemma main_inv drv a :
  main drv = Return a -> DriverOk drv /\ a = render (setupApp drv).
Proof.
  unfold main. intros H.
  destruct (fst (drvCompile drv VERTEX_SHADER vertexShaderSource)) eqn:H1;
  destruct (fst (drvCompile drv FRAGMENT_SHADER fragmentShaderSource)) eqn:H2;
  destruct (fst (drvLink drv [vertexShaderObject drv; fragmentShaderObject drv])) eqn:H3.
  1: { assert (Hok : DriverOk drv) by (repeat split; assumption).
       rewrite (setup_ok drv Hok) in H. inversion H. auto. }
  all: destruct (setup_throws drv) as (e & c & E);
    [ intros (? & ? & ?); congruence | rewrite E in H; discriminate ].
Qed.

Lemma main_ok drv : DriverOk drv -> main drv = Return (render (setupApp drv)).
Proof. intros H. unfold main. rewrite (setup_ok drv H). reflexivity. Qed.

(** On the sample platform whose linker rejects everything, the two
    [loadShader] calls of [main] leave [shaderContext]. *)
Lemma shaderContext_failLink msg :
  (loadShader VERTEX_SHADER vertexShaderSource ;;
   loadShader FRAGMENT_SHADER fragmentShaderSource) (newContext (failLink msg))
  = (Return (Some 1%nat), shaderContext (failLink msg)).
Proof. vm_compute. reflexivity. Qed.

(** ** [render] *)

Lemma is_Some_initialBuffers n :
  n = posName \/ n = texCoordName \/ n = indexName -> is_Some (initialBuffers !! n).
Proof. intros [-> | [-> | ->]]; eexists; reflexivity. Qed.

Lemma pageAttrib_insert loc b size (m : gmap Z VertexAttrib) :
  (b = posName /\ size = 3) \/ (b = texCoordName /\ size = 2) ->
  map_Forall (fun _ va => pageAttrib va) m ->
  map_Forall (fun _ va => pageAttrib va) (<[loc := sourceAttrib b size]> m).
Proof.
  intros Hb Hm. apply map_Forall_insert_2; [|exact Hm].
  destruct Hb as [[-> ->] | [-> ->]]; [left | right]; reflexivity.
Qed.

Ltac attrib_step :=
  gl_step; rewrite ?lookup_insert_eq; cbn [vaBuffer vaSize vaEnabled];
  rewrite ?insert_insert_eq.

Lemma renderGL_exec a c :
  posBuffer a = Some posName -> texCoordBuffer a = Some texCoordName ->
  indexBuffer a = Some indexName -> texture a = Some textureName ->
  buffers c = initialBuffers ->
  (exists t, textures c = {[ textureName := t ]} /\ pageTexture t) ->
  map_Forall (fun _ va => pageAttrib va) (vertexAttribs c) ->
  exists d c',
    exec (renderGL a) c = with_drawCalls (drawCalls c ++ [d]) c' /\
    buffers c' = buffers c /\ textures c' = textures c /\
    drawCalls c' = drawCalls c /\
    map_Forall (fun _ va => pageAttrib va) (vertexAttribs c') /\
    dcTextures d = textures c /\
    PageDraw (aTexCoord (programInfo a)) d.
Proof.
  intros Hp Ht Hi Hx Hb (t & Htx & Hpt) Hva.
  assert (Bp : is_Some (buffers c !! posName))
    by (rewrite Hb; apply is_Some_initialBuffers; auto).
  assert (Bt : is_Some (buffers c !! texCoordName))
    by (rewrite Hb; apply is_Some_initialBuffers; auto).
  assert (Bi : is_Some (buffers c !! indexName))
    by (rewrite Hb; apply is_Some_initialBuffers; auto).
  assert (Tx : is_Some (textures c !! textureName))
    by (rewrite Htx, lookup_singleton_eq; eauto).
  unfold renderGL. rewrite Hp, Ht, Hi, Hx.
  unfold gl.bindBuffer, gl.vertexAttribPointer, gl.enableVertexAttribArray,
    gl.activeTexture, gl.bindTexture, gl.drawElements.
  destruct (bool_decide (0 <= aPos (programInfo a))) eqn:E1;
  destruct (bool_decide (0 <= aTexCoord (programInfo a))) eqn:E2;
  gl_step; rewrite (bool_decide_eq_true_2 _ Bp);
  do 3 attrib_step; rewrite (bool_decide_eq_true_2 _ Bt);
  do 3 attrib_step; rewrite (bool_decide_eq_true_2 _ Bi);
  do 2 attrib_step; rewrite (bool_decide_eq_true_2 _ Tx);
  attrib_step;
  (eexists _, _; split; [reflexivity|]; ctx_simpl;
   split; [reflexivity|]; split; [reflexivity|]; split; [reflexivity|]).
  all: fold (sourceAttrib posName 3); fold (sourceAttrib texCoordName 2).
  all: assert (Hfinal : forall m, map_Forall (fun _ va => pageAttrib va) m ->
         map_Forall (fun _ va => pageAttrib va) (<[aTexCoord (programInfo a) := sourceAttrib texCoordName 2]> m))
       by (intros; apply pageAttrib_insert; auto).
  all: assert (Hpos : forall m, map_Forall (fun _ va => pageAttrib va) m ->
         map_Forall (fun _ va => pageAttrib va) (<[aPos (programInfo a) := sourceAttrib posName 3]> m))
       by (intros; apply pageAttrib_insert; auto).
  all: split; [ solve [auto] | ].
  all: split; [ reflexivity | ].
  all: split; cbn; try reflexivity; try solve [auto]; try (rewrite Hb; reflexivity).
  all: try apply lookup_insert_eq.
  all: try (exists t; split; [exact Htx | exact Hpt]).
  all: intros H0; try (apply bool_decide_eq_false in E2; contradiction).
  all: apply lookup_insert_eq.
Qed.

(** ** What [render] leaves alone *)

Lemma exec_seq (op m : GLM unit) c :
  updates op -> exec (op ;; m) c = exec m (exec op c).
Proof.
  intros Hu. unfold exec at 1. unfold mbind, GLM_bind. rewrite (Hu c). reflexivity.
Qed.

Lemma keeps_seq (op m : GLM unit) :
  updates op -> keeps op -> keeps m -> keeps (op ;; m).
Proof.
  intros Hu Ho Hm c. rewrite (exec_seq op m c Hu).
  destruct (Hm (exec op c)) as (H1 & H2 & H3 & H4).
  destruct (Ho c) as (H5 & H6 & H7 & H8).
  repeat split; congruence.
Qed.

Lemma draws_seq (op m : GLM unit) :
  updates op -> draws m -> draws (op ;; m).
Proof. intros Hu Hm c. rewrite (exec_seq op m c Hu). apply Hm. Qed.

Lemma renderGL_draws a : draws (renderGL a).
Proof.
  unfold renderGL.
  repeat (apply draws_seq; [intro; reflexivity | ]).
  intros c H. unfold gl.drawElements, exec, modify in H. cbn [snd drawCalls with_drawCalls] in H.
  apply app_eq_nil in H. destruct H; discriminate.
Qed.

Lemma render_drawn a : drawCalls (ctx (render a)) <> [].
Proof. unfold render. cbn [ctx with_ctx with_overlay]. apply renderGL_draws. Qed.

Ltac keeps_op :=
  let c := fresh "c" in
  intro c;
  unfold gl.bindBuffer, gl.vertexAttribPointer, gl.enableVertexAttribArray,
    gl.activeTexture, gl.bindTexture, gl.drawElements, exec, modify;
  cbn [snd]; repeat case_match; repeat split; reflexivity.

Lemma renderGL_keeps a : keeps (renderGL a).
Proof.
  unfold renderGL.
  repeat (apply keeps_seq; [intro; reflexivity | keeps_op | ]).
  keeps_op.
Qed.

Lemma render_sliders a : sliders (render a) = sliders a.
Proof. reflexivity. Qed.

Lemma render_buffers a : buffers (ctx (render a)) = buffers (ctx a).
Proof. unfold render. cbn [ctx with_ctx with_overlay]. apply renderGL_keeps. Qed.

Lemma render_textures a : textures (ctx (render a)) = textures (ctx a).
Proof. unfold render. cbn [ctx with_ctx with_overlay]. apply renderGL_keeps. Qed.

Lemma render_program a :
  programs (ctx (render a)) = programs (ctx a) /\
  currentProgram (ctx (render a)) = currentProgram (ctx a).
Proof. unfold render. cbn [ctx with_ctx with_overlay]. split; apply renderGL_keeps. Qed.

Lemma onmousemove_buffers x y a :
  buffers (ctx (onmousemove x y a)) = buffers (ctx a).
Proof.
  unfold onmousemove. repeat case_match; try reflexivity.
  rewrite render_buffers. reflexivity.
Qed.

Lemma onmousemove_textures x y a :
  textures (ctx (onmousemove x y a)) = textures (ctx a).
Proof.
  unfold onmousemove. repeat case_match; try reflexivity.
  rewrite render_textures. reflexivity.
Qed.

(** ** The invariant of the page *)

Ltac app_simpl :=
  cbn [ctx sliders dragging image programInfo posBuffer texCoordBuffer
       indexBuffer texture overlay
       with_ctx with_sliders with_dragging with_image with_overlay].

Lemma render_inv drv a :
  PageInv drv a -> PageInv drv (render a) /\ drawCalls (ctx (render a)) <> [].
Proof.
  intros [Hp Ht Hi Hx Hinfo Hb Htx Hs Hd Hva Hdr].
  destruct (renderGL_exec a (ctx a) Hp Ht Hi Hx Hb Htx Hva)
    as (d & c' & E & Eb & Et & Ed & Eva & _ & Hpd).
  unfold render. app_simpl.
  rewrite E. split.
  - split; app_simpl; ctx_simpl; try assumption; try congruence.
    + rewrite Et. exact Htx.
    + apply Forall_app. split; [assumption|]. constructor; [|constructor].
      rewrite Hinfo in Hpd. exact Hpd.
  - rewrite <- E. apply renderGL_draws.
Qed.

Lemma setupApp_inv drv : PageInv drv (setupApp drv).
Proof.
  split; try reflexivity.
  - exists placeholderTexture. repeat split.
  - intros i H. discriminate.
  - apply map_Forall_empty.
  - constructor.
Qed.

Lemma onmousemove_inv drv x y a :
  PageInv drv a -> PageInv drv (onmousemove x y a).
Proof.
  intros H. unfold onmousemove.
  destruct (dragging a) as [i|] eqn:Ed; [|exact H].
  destruct (sliders a !! i) as [slider|] eqn:Es; [|exact H].
  apply render_inv. destruct H. split; app_simpl; try assumption.
  rewrite length_insert. assumption.
Qed.

Lemma onload_inv drv img a :
  PageInv drv a -> PageInv drv (onload img a).
Proof.
  intros [Hp Ht Hi Hx Hinfo Hb (t & Htx & Hpt) Hs Hd Hva Hdr].
  unfold onload. apply render_inv. app_simpl. rewrite Hx.
  unfold gl.bindTexture, gl.texImage2D_image, gl.boundTexture.
  assert (Tx : is_Some (textures (ctx a) !! textureName))
    by (rewrite Htx, lookup_singleton_eq; eauto).
  assert (Z0 : 0 <= 0) by lia.
  gl_step. rewrite (bool_decide_eq_true_2 _ Tx).
  gl_step. rewrite lookup_insert_eq, (bool_decide_eq_true_2 _ Z0).
  split; app_simpl; ctx_simpl; try assumption.
  rewrite Htx, alter_singleton_eq.
  eexists. split; [reflexivity|]. exact Hpt.
Qed.

Lemma handle_inv drv e a : PageInv drv a -> PageInv drv (handle e a).
Proof.
  intros H. destruct e as [i|x y| |img]; cbn [handle].
  - unfold onmousedown. case_bool_decide; [|exact H].
    destruct H. split; app_simpl; try assumption.
    intros j Hj. injection Hj as <-. lia.
  - apply onmousemove_inv, H.
  - destruct H. split; app_simpl; try assumption. intros j Hj. discriminate.
  - apply onload_inv, H.
Qed.

Lemma handle_drawn e a : drawCalls (ctx a) <> [] -> drawCalls (ctx (handle e a)) <> [].
Proof.
  pose proof render_drawn as Hr.
  intros H. destruct e as [i|x y| |img]; cbn [handle].
  - unfold onmousedown. case_bool_decide; exact H.
  - unfold onmousemove. destruct (dragging a); [|exact H].
    destruct (sliders a !! n); [|exact H]. apply Hr.
  - exact H.
  - apply Hr.
Qed.

Lemma reachable_inv drv a :
  reachable drv a -> DriverOk drv /\ PageInv drv a /\ drawCalls (ctx a) <> [].
Proof.
  induction 1 as [a Hm | a e _ (Hok & Hinv & Hdr)].
  - apply main_inv in Hm. destruct Hm as [Hok ->].
    split; [exact Hok|]. apply render_inv, setupApp_inv.
  - split; [exact Hok|]. split; [apply handle_inv, Hinv | apply handle_drawn, Hdr].
Qed.

(** * Properties of the script *)

(** ** Shader Program Builder *)

(** C7, as the script has it. [loadShader] compiles [source] as a shader of
    the given type in a new shader object. When the compiler accepts it, the
    call returns the handle of that object and changes nothing but the
    shader table (the new object) and the name counter. When the compiler
    rejects it, the call returns [null]; the diagnostic text goes to the
    console, not into the returned value, and the shader object is deleted:
    the shader table is what it was. *)
Theorem loadShader_outcomes (type : ShaderType) (source : string) (c : Context) :
  Fresh c ->
  let n := nextName c in
  let r := drvCompile (driver c) type source in
  (fst r = true ->
     loadShader type source c =
       (Return (Some n),
        with_shaders
          (<[n := {| shType := type; shSource := source;
                     shCompileStatus := true; shInfoLog := snd r |}]> (shaders c))
          (with_nextName (S n) c))) /\
  (fst r = false ->
     loadShader type source c =
       (Return None,
        with_console (console c ++ [("Error compiling shader", snd r)])
          (with_nextName (S n) c)) /\
     shaders (exec (loadShader type source) c) = shaders c).
Proof.
  intros HF n r. pose proof (loadShader_run type source c HF) as H.
  cbv zeta in H. fold n r in H. unfold exec. rewrite H.
  split; intros ->; [reflexivity | split; reflexivity].
Qed.

Lemma loadShader_outcomes_witness :
  Fresh (newContext (failCompile "syntax error")) /\
  loadShader VERTEX_SHADER vertexShaderSource (newContext (failCompile "syntax error")) =
    (Return None,
     with_console [("Error compiling shader", "syntax error")]
       (with_nextName 1 (newContext (failCompile "syntax error")))).
Proof.
  split; [apply Fresh_newContext|].
  apply (loadShader_outcomes VERTEX_SHADER vertexShaderSource
           (newContext (failCompile "syntax error")) (Fresh_newContext _)).
  reflexivity.
Defined.

(** C7 as stated fails: the value [loadShader] returns on a compile failure
    carries no diagnostic text. Two compilers that reject the same source
    with different texts make it return the same value, so no function of
    the returned value gives the text back. *)
Lemma loadShader_failure_value_has_no_text :
  ~ (exists text_of : result (option nat) -> option string,
       forall msg,
         text_of (fst (loadShader VERTEX_SHADER vertexShaderSource
                         (newContext (failCompile msg)))) = Some msg).
Proof.
  intros [text_of H].
  pose proof (H "a") as Ha. pose proof (H "b") as Hb.
  rewrite loadShader_run in Ha, Hb by apply Fresh_newContext.
  cbn in Ha, Hb. rewrite Ha in Hb. discriminate.
Qed.

(** C6, as the script has it. [createProgram] makes a program object,
    attaches the vertex and the fragment shader to it and links it. When
    the linker accepts, the call returns the program, which holds both
    shaders. When the linker rejects, the call returns [null]; the
    diagnostic text goes to the console, not into the returned value, and
    the program object is deleted: the program table is what it was. In
    both outcomes the shader table is untouched: the call creates no shader
    object and deletes none. *)
Theorem createProgram_outcomes (vs fs : nat) (shv shf : Shader) (c : Context) :
  Fresh c ->
  shaders c !! vs = Some shv -> shaders c !! fs = Some shf ->
  shType shv <> shType shf ->
  let p := nextName c in
  let r := drvLink (driver c) [shv; shf] in
  shaders (exec (createProgram (Some vs) (Some fs)) c) = shaders c /\
  (fst r = true ->
     createProgram (Some vs) (Some fs) c =
       (Return (Some p),
        with_programs
          (<[p := {| prAttached := [vs; fs]; prLinkStatus := true;
                     prInfoLog := snd r |}]> (programs c))
          (with_nextName (S p) c))) /\
  (fst r = false ->
     createProgram (Some vs) (Some fs) c =
       (Return None,
        with_console (console c ++ [("Error linking program", snd r)])
          (with_nextName (S p) c)) /\
     programs (exec (createProgram (Some vs) (Some fs)) c) = programs c).
Proof.
  intros HF Hv Hf Hne p r.
  pose proof (createProgram_run vs fs shv shf c HF Hv Hf Hne) as H.
  cbv zeta in H. fold p r in H. unfold exec. rewrite H.
  split; [destruct (fst r); reflexivity|].
  split; intros ->; [reflexivity | split; reflexivity].
Qed.

Lemma Fresh_shaderContext drv : Fresh (shaderContext drv).
Proof. repeat split; try reflexivity. discriminate. Qed.

Lemma createProgram_outcomes_witness :
  createProgram (Some 0%nat) (Some 1%nat) (shaderContext (failLink "link error")) =
    (Return None,
     with_console [("Error linking program", "link error")]
       (with_nextName 3 (shaderContext (failLink "link error")))).
Proof.
  assert (Hne : VERTEX_SHADER <> FRAGMENT_SHADER) by discriminate.
  apply (createProgram_outcomes 0 1
           (vertexShaderObject (failLink "link error"))
           (fragmentShaderObject (failLink "link error"))
           (shaderContext (failLink "link error"))
           (Fresh_shaderContext _) eq_refl eq_refl Hne).
  reflexivity.
Defined.

(** C6 as stated fails: the value [createProgram] returns on a link failure
    carries no diagnostic text. Two linkers that reject the same program
    with different texts make it return the same value. *)
Lemma createProgram_failure_value_has_no_text :
  ~ (exists text_of : result (option nat) -> option string,
       forall msg,
         text_of (fst (createProgram (Some 0%nat) (Some 1%nat)
                         (shaderContext (failLink msg)))) = Some msg).
Proof.
  intros [text_of H].
  pose proof (H "a") as Ha. pose proof (H "b") as Hb.
  vm_compute in Ha, Hb. rewrite Ha in Hb. discriminate.
Qed.

(** ** Coordinate Mapper *)

Lemma main_okDriver : main okDriver = Return page0.
Proof. vm_compute. reflexivity. Qed.

Lemma reachable_page0 : reachable okDriver page0.
Proof. apply reachable_main, main_okDriver. Qed.

Lemma reachable_run drv es a : reachable drv a -> reachable drv (run es a).
Proof.
  revert a. induction es as [|e es IH]; intros a H; [exact H|].
  apply IH. apply reachable_handle, H.
Qed.

(** C1 fails on the script: the handler stores the fractions of the raw
    pointer position and clamps only the position it gives the marker on
    the page. On a 400 x 400 image at the page origin, dragging marker 0
    to (500, 500) stores (1.25, 1.25), which is not in the unit square,
    while dragging it to the nearest boundary point (400, 400) stores
    (1, 1); both leave the marker drawn at the clamped place, 395px from
    the left and from the top. *)
Theorem drag_outside_image_stores_unclamped_fraction :
  let a := run [ImageLoad image400; MouseDown 0] page0 in
  markerFraction (onmousemove 500 500 a) 0 = Some (1.25, 1.25)%float /\
  PrimFloat.leb 1.25 1 = false /\
  markerFraction (onmousemove 400 400 a) 0 = Some (1, 1)%float /\
  (styleLeft <$> sliders (onmousemove 500 500 a) !! 0%nat) = Some (Some 395%float) /\
  (styleTop <$> sliders (onmousemove 500 500 a) !! 0%nat) = Some (Some 395%float) /\
  (styleLeft <$> sliders (onmousemove 400 400 a) !! 0%nat) = Some (Some 395%float) /\
  (styleTop <$> sliders (onmousemove 400 400 a) !! 0%nat) = Some (Some 395%float).
Proof. vm_compute. repeat split; reflexivity. Qed.

Lemma drawnTexCoords_inv drv a :
  PageInv drv a -> drawCalls (ctx a) <> [] ->
  0 <= drvAttribLocation drv "aTexCoord" ->
  drawnTexCoords a = Some texCoordData.
Proof.
  intros Hinv Hne Hloc. unfold drawnTexCoords.
  destruct (last (drawCalls (ctx a))) as [d|] eqn:El.
  - assert (Hd : PageDraw (drvAttribLocation drv "aTexCoord") d).
    { pose proof (inv_draws _ _ Hinv) as HF. rewrite Forall_forall in HF.
      apply HF. rewrite last_Some in El. destruct El as [l' ->].
      apply elem_of_app. right. apply list_elem_of_singleton. reflexivity. }
    cbn. rewrite (inv_info _ _ Hinv). cbn [aTexCoord].
    unfold attribData. rewrite (pd_texCoord _ _ Hd Hloc). cbn.
    rewrite (pd_buffers _ _ Hd). reflexivity.
  - apply last_None in El. contradiction.
Qed.

(** C2, as the script has it. The texCoord buffer is filled once, by
    [main], and no handler writes to it: in every state of the page the
    buffer object holds the sixteen floats of the script's table, whatever
    the markers store, every handler leaves every buffer object as it is,
    and when [aTexCoord] is an active attribute the latest draw call read
    exactly that table for it. *)
Theorem texCoord_buffer_is_constant (drv : Driver) (a : App) :
  reachable drv a ->
  0 <= drvAttribLocation drv "aTexCoord" ->
  texCoordBuffer a = Some texCoordName /\
  buffers (ctx a) !! texCoordName = Some (Float32Array texCoordData) /\
  drawnTexCoords a = Some texCoordData /\
  (forall e, buffers (ctx (handle e a)) = buffers (ctx a)).
Proof.
  intros Hr Hloc. destruct (reachable_inv drv a Hr) as (Hok & Hinv & Hne).
  split; [apply (inv_texCoord _ _ Hinv)|].
  split; [rewrite (inv_buffers _ _ Hinv); reflexivity|].
  split; [apply (drawnTexCoords_inv drv a Hinv Hne Hloc)|].
  intros e. pose proof (handle_inv drv e a Hinv) as Hinv'.
  rewrite (inv_buffers _ _ Hinv'), (inv_buffers _ _ Hinv). reflexivity.
Qed.

Lemma texCoord_buffer_is_constant_witness :
  let a := run [ImageLoad image400; MouseDown 0; MouseMove 100 300] page0 in
  markerFraction a 0 = Some (0.25, 0.75)%float /\
  drawnTexCoords a = Some texCoordData.
Proof.
  intros a. split; [vm_compute; reflexivity|].
  assert (Hr : reachable okDriver a) by apply reachable_run, reachable_page0.
  assert (Hloc : 0 <= drvAttribLocation okDriver "aTexCoord") by (vm_compute; discriminate).
  apply (texCoord_buffer_is_constant okDriver a Hr Hloc).
Defined.

(** C2 as stated fails: no binding table of vertices to markers makes the
    texCoord slots follow the markers. After marker [bind 0] is dragged to
    (100, 300) on a 400 x 400 image it stores (0.25, 0.75), and vertex 0
    still has (0, 1). *)
Lemma texCoords_do_not_follow_markers :
  ~ (exists bind : nat -> nat,
       forall a, reachable okDriver a ->
       forall i x y v, (i < 7)%nat -> (v < 8)%nat ->
         let a' := handle (MouseMove x y) (handle (MouseDown i) a) in
         vertexTexCoord a' v = markerFraction a' (bind v)).
Proof.
  intros [bind H].
  assert (Hr : reachable okDriver (handle (ImageLoad image400) page0))
    by apply reachable_handle, reachable_page0.
  assert (Hv : (0 < 8)%nat) by lia.
  destruct (bind 0%nat) as [|[|[|[|[|[|[|n]]]]]]] eqn:Eb.
  8: { assert (Hi : (0 < 7)%nat) by lia.
       specialize (H _ Hr 0%nat 100 300 0%nat Hi Hv). rewrite Eb in H.
       vm_compute in H. discriminate. }
  all: match type of Eb with
       | _ = ?m =>
           assert (Hi : (m < 7)%nat) by lia;
           specialize (H _ Hr m 100 300 0%nat Hi Hv); rewrite Eb in H
       end;
       vm_compute in H; revert H; apply fraction_neq; vm_compute; reflexivity.
Qed.

Lemma onmousemove_slider x y a i slider :
  dragging a = Some i -> sliders a !! i = Some slider ->
  sliders (onmousemove x y a) =
    <[i := {| posInImageXPercent :=
                Some (PrimFloat.div
                        (PrimFloat.sub (JS.of_long x) (JS.of_long (offsetLeft (image a))))
                        (JS.of_long (width (image a))));
              posInImageYPercent :=
                Some (PrimFloat.div
                        (PrimFloat.sub (JS.of_long y) (JS.of_long (offsetTop (image a))))
                        (JS.of_long (height (image a))));
              styleLeft :=
                setPx (styleLeft slider)
                  (PrimFloat.sub
                     (JS.math_max (JS.of_long (offsetLeft (image a)))
                        (JS.math_min
                           (PrimFloat.add (JS.of_long (offsetLeft (image a)))
                              (JS.of_long (width (image a))))
                           (JS.of_long x))) 5);
              styleTop :=
                setPx (styleTop slider)
                  (PrimFloat.sub
                     (JS.math_max (JS.of_long (offsetTop (image a)))
                        (JS.math_min
                           (PrimFloat.add (JS.of_long (offsetTop (image a)))
                              (JS.of_long (height (image a))))
                           (JS.of_long y))) 5) |}]> (sliders a).
Proof. intros Hd Hs. unfold onmousemove. rewrite Hd, Hs. reflexivity. Qed.

Lemma markerFraction_insert a l i slider x y :
  sliders a = <[i := slider]> l -> (i < length l)%nat ->
  posInImageXPercent slider = Some x -> posInImageYPercent slider = Some y ->
  markerFraction a i = Some (x, y).
Proof.
  intros Hs Hi Hx Hy. unfold markerFraction.
  rewrite Hs, list_lookup_insert_eq by exact Hi. cbn. rewrite Hx. cbn. rewrite Hy.
  reflexivity.
Qed.

(** C3, as the script has it. The handler has no guard for an image
    without size: a drag delivered while the image's width or height is
    zero still divides and overwrites the dragged marker's two fractions
    with the quotients, and a quotient by the zero dimension is never
    finite (it is NaN or an infinity). The other markers and every buffer
    object, the texCoord buffer with them, stay as they are. *)
Theorem zero_size_drag_still_divides (drv : Driver) (a : App) (i : nat) (x y : Z) :
  reachable drv a ->
  dragging a = Some i ->
  width (image a) = 0 \/ height (image a) = 0 ->
  let a' := onmousemove x y a in
  let fx := PrimFloat.div
              (PrimFloat.sub (JS.of_long x) (JS.of_long (offsetLeft (image a))))
              (JS.of_long (width (image a))) in
  let fy := PrimFloat.div
              (PrimFloat.sub (JS.of_long y) (JS.of_long (offsetTop (image a))))
              (JS.of_long (height (image a))) in
  markerFraction a' i = Some (fx, fy) /\
  (width (image a) = 0 -> JS.is_finite fx = false) /\
  (height (image a) = 0 -> JS.is_finite fy = false) /\
  (forall j, j <> i -> sliders a' !! j = sliders a !! j) /\
  buffers (ctx a') = buffers (ctx a).
Proof.
  intros Hr Hd Hz a' fx fy.
  destruct (reachable_inv drv a Hr) as (_ & Hinv & _).
  assert (Hi : (i < length (sliders a))%nat).
  { rewrite (inv_sliders _ _ Hinv). apply (inv_dragging _ _ Hinv), Hd. }
  destruct (lookup_lt_is_Some_2 _ _ Hi) as [slider Hs].
  pose proof (onmousemove_slider x y a i slider Hd Hs) as E. fold a' in E.
  split; [|split; [|split; [|split]]].
  - eapply markerFraction_insert; [exact E | exact Hi | reflexivity | reflexivity].
  - intros Hw. unfold fx. rewrite Hw. apply div_zero_not_finite.
  - intros Hh. unfold fy. rewrite Hh. apply div_zero_not_finite.
  - intros j Hj. rewrite E. apply list_lookup_insert_ne. congruence.
  - apply onmousemove_buffers.
Qed.

Lemma zero_size_drag_still_divides_witness :
  let a := handle (MouseDown 0) page0 in
  markerFraction (onmousemove 10 20 a) 0 = Some (PrimFloat.infinity, PrimFloat.infinity) /\
  buffers (ctx (onmousemove 10 20 a)) = buffers (ctx a).
Proof.
  intros a.
  assert (Hr : reachable okDriver a) by apply reachable_handle, reachable_page0.
  assert (Hd : dragging a = Some 0%nat) by reflexivity.
  assert (Hz : width (image a) = 0 \/ height (image a) = 0) by (left; reflexivity).
  destruct (zero_size_drag_still_divides okDriver a 0 10 20 Hr Hd Hz)
    as (Hm & _ & _ & _ & Hb).
  split; [|exact Hb]. rewrite Hm. vm_compute. reflexivity.
Defined.

(** C3 as stated fails: a drag while the image has no size is not a no-op.
    Right after [main], with the image not loaded, pressing marker 0 and
    moving the pointer changes what marker 0 stores. *)
Lemma zero_size_drag_is_not_a_noop :
  ~ (forall a x y, reachable okDriver a ->
       width (image a) = 0 \/ height (image a) = 0 ->
       sliders (onmousemove x y a) = sliders a).
Proof.
  intros H.
  assert (Hr : reachable okDriver (handle (MouseDown 0) page0))
    by apply reachable_handle, reachable_page0.
  specialize (H _ 10 20 Hr (or_introl eq_refl)).
  vm_compute in H. discriminate.
Qed.

(** C4, as the script has it. With a 400 x 400 image at the page origin
    and marker 0 being dragged, a pointer at (100, 300) stores exactly
    (0.25, 0.75) in marker 0: both quotients are binary64 values, nothing is
    rounded. No vertex receives that pair: the drag leaves every buffer
    object as it is and the texCoord buffer still holds the script's
    table. *)
Theorem drag_100_300_stores_quarter (drv : Driver) (a : App) :
  reachable drv a ->
  dragging a = Some 0%nat ->
  image a = image400 ->
  let a' := onmousemove 100 300 a in
  markerFraction a' 0 = Some (0.25, 0.75)%float /\
  buffers (ctx a') = buffers (ctx a) /\
  buffers (ctx a') !! texCoordName = Some (Float32Array texCoordData).
Proof.
  intros Hr Hd Himg a'.
  destruct (reachable_inv drv a Hr) as (_ & Hinv & _).
  assert (Hi : (0 < length (sliders a))%nat) by (rewrite (inv_sliders _ _ Hinv); lia).
  destruct (lookup_lt_is_Some_2 _ _ Hi) as [slider Hs].
  pose proof (onmousemove_slider 100 300 a 0 slider Hd Hs) as E. fold a' in E.
  rewrite Himg in E.
  split; [|split].
  - eapply markerFraction_insert; [exact E | exact Hi | | ];
      cbn [posInImageXPercent posInImageYPercent]; f_equal; vm_compute; reflexivity.
  - apply onmousemove_buffers.
  - unfold a'. rewrite onmousemove_buffers, (inv_buffers _ _ Hinv). reflexivity.
Qed.

Lemma drag_100_300_stores_quarter_witness :
  let a := run [ImageLoad image400; MouseDown 0] page0 in
  dragging a = Some 0%nat /\ image a = image400 /\
  markerFraction (onmousemove 100 300 a) 0 = Some (0.25, 0.75)%float.
Proof.
  intros a.
  assert (Hr : reachable okDriver a) by apply reachable_run, reachable_page0.
  assert (Hd : dragging a = Some 0%nat) by reflexivity.
  assert (Himg : image a = image400) by reflexivity.
  split; [exact Hd|]. split; [exact Himg|].
  apply (drag_100_300_stores_quarter okDriver a Hr Hd Himg).
Defined.

(** C4 as stated fails: whatever vertices a binding table gives marker 0,
    as long as it gives it one, that vertex does not receive (0.25, 0.75).
    After the drag the eight texCoord pairs are those of the script's
    table. *)
Lemma drag_100_300_reaches_no_vertex :
  let a' := run [ImageLoad image400; MouseDown 0; MouseMove 100 300] page0 in
  ~ (exists bind : nat -> nat,
       (exists v, (v < 8)%nat /\ bind v = 0%nat) /\
       forall v, (v < 8)%nat -> bind v = 0%nat ->
         vertexTexCoord a' v = Some (0.25, 0.75)%float).
Proof.
  intros a' (bind & (v & Hv & Hb) & H).
  specialize (H v Hv Hb).
  do 8 (destruct v as [|v];
        [ vm_compute in H; revert H; apply fraction_neq; vm_compute; reflexivity | ]).
  lia.
Qed.

(** C5. Delivering the same pointer position twice leaves the markers, the
    buffer and texture objects, the overlay and the rest of the page state
    as delivering it once: the stored fractions depend on the event and
    the image only, never on what was stored before. *)
Theorem onmousemove_idempotent (x y : Z) (a : App) :
  let a1 := onmousemove x y a in
  let a2 := onmousemove x y a1 in
  sliders a2 = sliders a1 /\
  (forall m, markerFraction a2 m = markerFraction a1 m) /\
  buffers (ctx a2) = buffers (ctx a1) /\
  textures (ctx a2) = textures (ctx a1) /\
  overlay a2 = overlay a1 /\
  dragging a2 = dragging a1 /\
  image a2 = image a1.
Proof.
  intros a1 a2.
  assert (Hs : sliders a2 = sliders a1 /\ overlay a2 = overlay a1 /\
               dragging a2 = dragging a1 /\ image a2 = image a1).
  { unfold a2, a1, onmousemove.
    destruct (dragging a) as [i|] eqn:Hd; [|rewrite Hd; auto].
    destruct (sliders a !! i) as [slider|] eqn:Hsl; [|rewrite Hd, Hsl; auto].
    cbn [render dragging sliders image overlay with_ctx with_overlay with_sliders].
    rewrite Hd.
    assert (Hi : (i < length (sliders a))%nat) by (eapply lookup_lt_Some; eauto).
    rewrite list_lookup_insert_eq by exact Hi.
    cbn [render dragging sliders image overlay with_ctx with_overlay with_sliders
         styleLeft styleTop].
    rewrite !setPx_idem, list_insert_insert_eq. auto. }
  destruct Hs as (Hs & Ho & Hd & Hi).
  split; [exact Hs|]. split; [intros m; unfold markerFraction; rewrite Hs; reflexivity|].
  split; [apply onmousemove_buffers|]. split; [apply onmousemove_textures|auto].
Qed.

(** ** Geometry Store, Texture Manager, Render Loop *)

Lemma pageDraw_inRange loc d : PageDraw loc d -> drawInRange d.
Proof.
  intros Hd. exists indexName, indexData.
  rewrite (pd_elements _ _ Hd), (pd_buffers _ _ Hd), (pd_offset _ _ Hd),
    (pd_count _ _ Hd).
  split; [reflexivity|]. split; [reflexivity|]. split; [lia|].
  split; [vm_compute; discriminate|].
  change (take (Z.to_nat 18) (drop (Z.to_nat (0 `div` 2)) indexData)) with indexData.
  apply Forall_forall. intros i Hi.
  assert (Hrange : 0 <= i < 8).
  { revert i Hi. apply Forall_forall. unfold indexData.
    repeat constructor; lia. }
  split; [lia|].
  eapply map_Forall_impl; [apply (pd_attribs _ _ Hd)|].
  intros k va [-> | ->] _; cbn.
  - exists posName, posData. repeat split. change (Z.of_nat (length posData)) with 24. lia.
  - exists texCoordName, texCoordData. repeat split.
    change (Z.of_nat (length texCoordData)) with 16. lia.
Qed.

(** C8. On a platform that compiles and links the shaders, [main] returns,
    and in every state of the page the context holds exactly three buffer
    objects: the position buffer with 24 floats, the texCoord buffer with
    16 floats and the index buffer with 18 unsigned shorts. Every draw call
    on record is an indexed draw of triangles with unsigned short indices
    from offset 0 whose count, 18, is the number of indices in the element
    buffer it read; and there is at least one. *)
Theorem geometry_store_layout (drv : Driver) :
  DriverOk drv ->
  exists a0, main drv = Return a0 /\
  forall a, reachable drv a ->
    size (buffers (ctx a)) = 3%nat /\
    (exists pb l, posBuffer a = Some pb /\
       buffers (ctx a) !! pb = Some (Float32Array l) /\ length l = 24%nat) /\
    (exists tb l, texCoordBuffer a = Some tb /\
       buffers (ctx a) !! tb = Some (Float32Array l) /\ length l = 16%nat) /\
    (exists ib l, indexBuffer a = Some ib /\
       buffers (ctx a) !! ib = Some (Uint16Array l) /\ length l = 18%nat) /\
    drawCalls (ctx a) <> [] /\
    Forall (fun d =>
              dcMode d = TRIANGLES /\ dcType d = UNSIGNED_SHORT /\
              dcOffset d = 0 /\ dcCount d = 18 /\
              exists ib l, dcElementBuffer d = Some ib /\
                dcBuffers d !! ib = Some (Uint16Array l) /\
                dcCount d = Z.of_nat (length l))
      (drawCalls (ctx a)).
Proof.
  intros Hok. exists (render (setupApp drv)). split; [apply main_ok, Hok|].
  intros a Hr. destruct (reachable_inv drv a Hr) as (_ & Hinv & Hne).
  rewrite (inv_buffers _ _ Hinv), (inv_pos _ _ Hinv), (inv_texCoord _ _ Hinv),
    (inv_index _ _ Hinv).
  split; [vm_compute; reflexivity|].
  split; [exists posName, posData; repeat split|].
  split; [exists texCoordName, texCoordData; repeat split|].
  split; [exists indexName, indexData; repeat split|].
  split; [exact Hne|].
  eapply Forall_impl; [apply (inv_draws _ _ Hinv)|].
  intros d Hd. cbn.
  rewrite (pd_mode _ _ Hd), (pd_type _ _ Hd), (pd_offset _ _ Hd), (pd_count _ _ Hd),
    (pd_elements _ _ Hd), (pd_buffers _ _ Hd).
  repeat split. exists indexName, indexData. repeat split.
Qed.

Lemma DriverOk_okDriver : DriverOk okDriver.
Proof. repeat split. Qed.

Lemma geometry_store_layout_witness :
  exists a0, main okDriver = Return a0 /\
    size (buffers (ctx (run [ImageLoad image400; MouseDown 2; MouseMove 7 9] a0))) = 3%nat.
Proof.
  destruct (geometry_store_layout okDriver DriverOk_okDriver) as (a0 & Hm & H).
  exists a0. split; [exact Hm|].
  apply H. apply reachable_run, reachable_main, Hm.
Defined.

(** C9. On a platform that compiles and links the shaders, the page [main]
    returns, before any image has loaded, has exactly one texture object. Its
    wrap mode is edge-clamp on both axes, its two filters are linear, and
    its only level is the 1 x 1 pixel (0, 0, 255, 255), whose alpha byte is
    255. The texture is complete, and the one draw call [main] has issued
    sampled it and had every index in range. *)
Theorem placeholder_texture_at_start (drv : Driver) :
  DriverOk drv ->
  exists a0 tx t d,
    main drv = Return a0 /\
    texture a0 = Some tx /\
    textures (ctx a0) = {[ tx := t ]} /\
    txWrapS t = CLAMP_TO_EDGE /\ txWrapT t = CLAMP_TO_EDGE /\
    txMinFilter t = LINEAR /\ txMagFilter t = LINEAR /\
    txLevels t = {[ 0 := {| tiWidth := 1; tiHeight := 1;
                            tiSource := Pixels (Uint8Array [0; 0; 255; 255]) |} ]} /\
    pixel = Uint8Array [0; 0; 255; 255] /\
    textureComplete t = true /\
    drawCalls (ctx a0) = [d] /\
    dcTexture d = Some tx /\ dcTextures d !! tx = Some t /\
    drawInRange d /\
    (exists p pr, currentProgram (ctx a0) = Some p /\
       programs (ctx a0) !! p = Some pr /\ prLinkStatus pr = true).
Proof.
  intros Hok.
  destruct (renderGL_exec (setupApp drv) (setupContext drv))
    as (d & c' & E & Eb & Et & Ed & Eva & Edt & Hpd); try reflexivity.
  { exists placeholderTexture. repeat split. }
  { apply map_Forall_empty. }
  exists (render (setupApp drv)), textureName, placeholderTexture, d.
  split; [apply main_ok, Hok|].
  destruct (render_program (setupApp drv)) as [-> ->].
  unfold render. cbn [ctx texture with_ctx with_overlay setupApp]. rewrite E.
  cbn [textures drawCalls with_drawCalls setupContext app].
  rewrite Et, Edt, (pd_texture _ _ Hpd).
  repeat split; try reflexivity; [eapply pageDraw_inRange, Hpd|].
  eexists _, _. repeat split; reflexivity.
Qed.

Lemma placeholder_texture_at_start_witness :
  exists a0 tx t, main okDriver = Return a0 /\ texture a0 = Some tx /\
    textures (ctx a0) = {[ tx := t ]} /\ textureComplete t = true.
Proof.
  destruct (placeholder_texture_at_start okDriver DriverOk_okDriver)
    as (a0 & tx & t & d & Hm & Hx & Ht & _ & _ & _ & _ & _ & _ & Hc & _).
  exists a0, tx, t. repeat split; assumption.
Defined.

(** C10. Every entry of the index buffer is a vertex number from 0 to 7,
    the position and texCoord buffers hold eight vertices each (three and
    two floats a vertex), the [Uint16Array] stores the indices unchanged,
    and in every state of the page every draw call on record read only
    indices that lie inside every enabled attribute array. The static
    eight-vertex variant of the script has the same index list and the
    same buffer sizes. *)
Theorem indices_within_vertices :
  Forall (fun i => 0 <= i < 8) indexData /\
  length indexData = 18%nat /\
  length posData = (8 * 3)%nat /\
  length texCoordData = (8 * 2)%nat /\
  new_Uint16Array indexData = Uint16Array indexData /\
  forall drv a, reachable drv a -> Forall drawInRange (drawCalls (ctx a)).
Proof.
  split; [unfold indexData; repeat constructor; lia|].
  do 4 (split; [reflexivity|]).
  intros drv a Hr. destruct (reachable_inv drv a Hr) as (_ & Hinv & _).
  eapply Forall_impl; [apply (inv_draws _ _ Hinv)|].
  intros d Hd. eapply pageDraw_inRange, Hd.
Qed.

Lemma indices_within_vertices_witness :
  let a := run [ImageLoad image400; MouseDown 0; MouseMove 100 300] page0 in
  length (drawCalls (ctx a)) = 3%nat /\ Forall drawInRange (drawCalls (ctx a)).
Proof.
  intros a. split; [vm_compute; reflexivity|].
  destruct indices_within_vertices as (_ & _ & _ & _ & _ & H).
  apply (H okDriver a). apply reachable_run, reachable_page0.
Defined.

(** * Further properties *)

(** ** Comparison of numbers *)










(** ** Dragging *)



(** X2. A drag touches the dragged marker only: every other marker, the
    number of markers, which marker is being dragged and the image
    attributes are as before the event. *)
Theorem drag_touches_one_marker (x y : Z) (a : App) (j : nat) :
  dragging a <> Some j ->
  sliders (onmousemove x y a) !! j = sliders a !! j /\
  length (sliders (onmousemove x y a)) = length (sliders a) /\
  dragging (onmousemove x y a) = dragging a /\
  image (onmousemove x y a) = image a.
Proof.
  intros Hj. unfold onmousemove.
  destruct (dragging a) as [i|] eqn:Hd; [|auto].
  destruct (sliders a !! i) as [slider|] eqn:Hs; [|rewrite Hd; auto].
  cbn [render sliders dragging image with_ctx with_overlay with_sliders].
  rewrite length_insert. repeat split; try assumption.
  apply list_lookup_insert_ne. congruence.
Qed.

Lemma drag_touches_one_marker_witness :
  let a := run [ImageLoad image400; MouseDown 0] page0 in
  sliders (onmousemove 100 300 a) !! 3%nat = sliders a !! 3%nat.
Proof.
  intros a.
  assert (Hj : dragging a <> Some 3%nat) by (vm_compute; discriminate).
  exact (proj1 (drag_touches_one_marker 100 300 a 3 Hj)).
Defined.

(** X3. Pointer moves do nothing while no marker is pressed: after any
    number of moves the page is the same state, with no draw call added.
    A release ends a drag: the moves that follow it change nothing. *)
Theorem moves_without_press_do_nothing (ps : list (Z * Z)) (a : App) :
  (dragging a = None -> run (moves ps) a = a) /\
  run (MouseUp :: moves ps) a = onmouseup a.
Proof.
  assert (H : forall b, dragging b = None -> run (moves ps) b = b).
  { intros b Hd. induction ps as [|[x y] ps IH]; [reflexivity|].
    cbn. unfold onmousemove. rewrite Hd. exact IH. }
  split; [apply H|]. cbn [run foldl handle]. apply H. reflexivity.
Qed.

Lemma moves_without_press_do_nothing_witness :
  run (moves [(10, 20); (500, 500)]) page0 = page0.
Proof.
  assert (Hd : dragging page0 = None) by reflexivity.
  exact (proj1 (moves_without_press_do_nothing [(10, 20); (500, 500)] page0) Hd).
Defined.

(** ** Draw calls, objects and the overlay *)

Ltac unfold_render_calls :=
  unfold gl.bindBuffer, gl.vertexAttribPointer, gl.enableVertexAttribArray,
    gl.activeTexture, gl.bindTexture, gl.texImage2D_image, gl.boundTexture,
    gl.drawElements, exec, modify.






Lemma keepsObjects_seq (op m : GLM unit) :
  updates op -> keepsObjects op -> keepsObjects m -> keepsObjects (op ;; m).
Proof.
  intros Hu Ho Hm c. rewrite (exec_seq op m c Hu).
  destruct (Hm (exec op c)) as (H1 & H2 & H3 & H4 & H5 & H6 & H7).
  destruct (Ho c) as (G1 & G2 & G3 & G4 & G5 & G6 & G7).
  repeat split; congruence.
Qed.

Ltac keepsObjects_op :=
  let c := fresh "c" in
  intro c; unfold_render_calls; cbn [snd]; repeat case_match;
  repeat split; try reflexivity; ctx_simpl; apply dom_alter_L.

Lemma renderGL_keepsObjects a : keepsObjects (renderGL a).
Proof.
  unfold renderGL.
  repeat (apply keepsObjects_seq; [intro; reflexivity | keepsObjects_op | ]).
  keepsObjects_op.
Qed.

Lemma upload_keepsObjects tx w h :
  keepsObjects (gl.bindTexture tx;; gl.texImage2D_image 0 RGBA RGBA UNSIGNED_BYTE w h).
Proof.
  apply keepsObjects_seq; [intro; reflexivity | keepsObjects_op | keepsObjects_op].
Qed.

Lemma handle_keepsObjects e a :
  nextName (ctx (handle e a)) = nextName (ctx a) /\
  shaders (ctx (handle e a)) = shaders (ctx a) /\
  programs (ctx (handle e a)) = programs (ctx a) /\
  buffers (ctx (handle e a)) = buffers (ctx a) /\
  currentProgram (ctx (handle e a)) = currentProgram (ctx a) /\
  console (ctx (handle e a)) = console (ctx a) /\
  dom (textures (ctx (handle e a))) = dom (textures (ctx a)).
Proof.
  assert (Hr : forall b, nextName (ctx (render b)) = nextName (ctx b) /\
    shaders (ctx (render b)) = shaders (ctx b) /\
    programs (ctx (render b)) = programs (ctx b) /\
    buffers (ctx (render b)) = buffers (ctx b) /\
    currentProgram (ctx (render b)) = currentProgram (ctx b) /\
    console (ctx (render b)) = console (ctx b) /\
    dom (textures (ctx (render b))) = dom (textures (ctx b))).
  { intros b. unfold render. cbn [ctx with_ctx with_overlay]. apply renderGL_keepsObjects. }
  destruct e as [i|x y| |img]; cbn [handle].
  - unfold onmousedown. case_bool_decide; repeat split.
  - unfold onmousemove. destruct (dragging a); [|repeat split].
    destruct (sliders a !! n); [|repeat split].
    match goal with |- context [render ?b] => exact (Hr b) end.
  - repeat split.
  - unfold onload.
    match goal with |- context [render ?b] => destruct (Hr b) as (H1 & H2 & H3 & H4 & H5 & H6 & H7) end.
    rewrite H1, H2, H3, H4, H5, H6, H7. cbn [ctx with_ctx with_image].
    apply upload_keepsObjects.
Qed.

(** X5. No handler creates, deletes or recompiles a WebGL object, changes
    the program in use or logs to the console: after any sequence of
    events, from any state, the name counter, the shader, program and
    buffer objects, the program in use, the console and the set of texture
    objects are those of the state the events started from. *)
Theorem events_keep_objects (es : list Event) (a : App) :
  nextName (ctx (run es a)) = nextName (ctx a) /\
  shaders (ctx (run es a)) = shaders (ctx a) /\
  programs (ctx (run es a)) = programs (ctx a) /\
  buffers (ctx (run es a)) = buffers (ctx a) /\
  currentProgram (ctx (run es a)) = currentProgram (ctx a) /\
  console (ctx (run es a)) = console (ctx a) /\
  dom (textures (ctx (run es a))) = dom (textures (ctx a)).
Proof.
  revert a. induction es as [|e es IH]; intros a; [repeat split|].
  cbn [run foldl].
  destruct (IH (handle e a)) as (H1 & H2 & H3 & H4 & H5 & H6 & H7).
  destruct (handle_keepsObjects e a) as (G1 & G2 & G3 & G4 & G5 & G6 & G7).
  unfold run in *. repeat split; congruence.
Qed.

(** ** Image load *)




(** ** The overlay *)



(** ** Failure of the set-up *)

Ltac no_scene :=
  split; [vm_compute; reflexivity|]; split; [vm_compute; reflexivity|];
  split; [vm_compute; reflexivity|]; split; [vm_compute; discriminate|];
  vm_compute;
  repeat (constructor; [first [left; reflexivity | right; reflexivity]|]);
  constructor.

Lemma setup_failure drv :
  ~ DriverOk drv ->
  exists c, setup (newContext drv) = (Throw "TypeError", c) /\
    buffers c = ∅ /\ textures c = ∅ /\ drawCalls c = [] /\
    console c <> [] /\ Forall shaderDiagnostic (console c).
Proof.
  intros Hno. unfold setup.
  destruct (fst (drvCompile drv VERTEX_SHADER vertexShaderSource)) eqn:H1;
  destruct (fst (drvCompile drv FRAGMENT_SHADER fragmentShaderSource)) eqn:H2.
  - load_step H1. load_step H2.
    destruct (fst (drvLink drv [vertexShaderObject drv; fragmentShaderObject drv])) eqn:H3.
    { exfalso. apply Hno. repeat split; assumption. }
    link_step drv H3.
    eexists. split; [reflexivity|]. no_scene.
  - load_step H1. load_step H2.
    eexists. split; [reflexivity|]. no_scene.
  - load_step H1. load_step H2.
    eexists. split; [reflexivity|]. no_scene.
  - load_step H1. load_step H2.
    eexists. split; [reflexivity|]. no_scene.
Qed.

(** X8. [main] gets through exactly when the platform compiles both
    shaders and links them. Otherwise it ends in a [TypeError]: a shader
    helper has returned [null] and the next call that needs the object
    throws. *)
Theorem main_outcome (drv : Driver) :
  (DriverOk drv /\ exists a, main drv = Return a) \/
  (~ DriverOk drv /\ main drv = Throw "TypeError").
Proof.
  destruct (fst (drvCompile drv VERTEX_SHADER vertexShaderSource)) eqn:H1;
  destruct (fst (drvCompile drv FRAGMENT_SHADER fragmentShaderSource)) eqn:H2;
  destruct (fst (drvLink drv [vertexShaderObject drv; fragmentShaderObject drv])) eqn:H3.
  1: { left. assert (Hok : DriverOk drv) by (repeat split; assumption).
       split; [exact Hok|]. eexists. apply main_ok, Hok. }
  all: right; assert (Hno : ~ DriverOk drv) by (intros (? & ? & ?); congruence);
       split; [exact Hno|];
       destruct (setup_failure drv Hno) as (c & E & _);
       unfold main; rewrite E; reflexivity.
Qed.

(** X9. When the platform rejects a shader or the program, the set-up
    stops with a [TypeError] before any buffer or texture exists and
    before anything is drawn; the console holds the diagnostics of the
    shader helpers and nothing else, at least one. *)
Theorem failed_setup_leaves_no_scene (drv : Driver) :
  ~ DriverOk drv ->
  exists c, setup (newContext drv) = (Throw "TypeError", c) /\
    buffers c = ∅ /\ textures c = ∅ /\ drawCalls c = [] /\
    console c <> [] /\ Forall shaderDiagnostic (console c).
Proof. apply setup_failure. Qed.

Lemma failed_setup_leaves_no_scene_witness :
  exists c, setup (newContext (failCompile "syntax error")) = (Throw "TypeError", c) /\
    buffers c = ∅ /\ textures c = ∅ /\ drawCalls c = [] /\
    console c <> [] /\ Forall shaderDiagnostic (console c).
Proof.
  assert (Hno : ~ DriverOk (failCompile "syntax error"))
    by (intros (H & _); vm_compute in H; discriminate).
  exact (failed_setup_leaves_no_scene (failCompile "syntax error") Hno).
Defined.

(** X10. Given [null] for a shader, as a failed [loadShader] returns it,
    [createProgram] throws a [TypeError] out of [attachShader]. By then it
    has created the program object, which it does not delete; it logs
    nothing and leaves the shader objects alone. *)
Theorem createProgram_null_shader (vs fs : option nat) (c : Context) :
  vs = None \/ fs = None ->
  exists c', createProgram vs fs c = (Throw "TypeError", c') /\
    is_Some (programs c' !! nextName c) /\
    nextName c' = S (nextName c) /\
    shaders c' = shaders c /\
    console c' = console c.
Proof.
  intros H. destruct vs as [v|].
  - destruct H as [H|H]; [discriminate|]. subst fs.
    eexists. split; [reflexivity|]. ctx_simpl.
    unfold gl.attachShader, nonnull, modify, mbind, mret, GLM_bind, GLM_ret.
    ctx_simpl. rewrite lookup_insert_eq.
    repeat case_match; ctx_simpl; rewrite ?lookup_insert_eq; repeat split; eauto.
  - eexists. split; [reflexivity|]. ctx_simpl.
    rewrite lookup_insert_eq. repeat split; eauto.
Qed.

Lemma createProgram_null_shader_witness :
  exists c', createProgram None (Some 1%nat) (newContext okDriver) = (Throw "TypeError", c') /\
    is_Some (programs c' !! 0%nat).
Proof.
  destruct (createProgram_null_shader None (Some 1%nat) (newContext okDriver)
              (or_introl eq_refl)) as (c' & E & Hp & _).
  exists c'. split; [exact E | exact Hp].
Defined.

(** ** Names *)

Lemma WellNamed_Fresh c : WellNamed c -> Fresh c.
Proof.
  intros H. destruct (H (nextName c) (le_n _)) as (Hs & Hp & Hc & Ha).
  repeat split; try assumption.
  unfold isAttached. apply bool_decide_eq_false.
  intros (p & pr & Hpr & Hin). exact (Ha p pr Hpr Hin).
Qed.

(** X11. [loadShader] never disturbs what is there: on a context whose
    names from the counter on are unused, it leaves every existing shader
    and every program as it is, a handle it returns names a new shader
    object, and the names from the new counter on are unused again, so the
    helper can be called any number of times. *)
Theorem loadShader_keeps_names (type : ShaderType) (source : string) (c : Context) :
  WellNamed c ->
  let c' := exec (loadShader type source) c in
  WellNamed c' /\
  (forall k sh, shaders c !! k = Some sh -> shaders c' !! k = Some sh) /\
  programs c' = programs c /\
  (forall h, fst (loadShader type source c) = Return (Some h) ->
     shaders c !! h = None /\ is_Some (shaders c' !! h)).
Proof.
  intros HW c'. pose proof (WellNamed_Fresh c HW) as HF.
  pose proof (loadShader_run type source c HF) as E. cbv zeta in E.
  unfold c', exec. rewrite E. clear E.
  destruct HF as (Hs & _).
  destruct (fst (drvCompile (driver c) type source)); ctx_simpl.
  - split; [|split; [|split]].
    + intros n Hn. ctx_simpl. cbn [nextName with_nextName with_shaders] in Hn.
      destruct (HW n ltac:(lia)) as (H1 & H2 & H3 & H4).
      rewrite lookup_insert_ne by lia. repeat split; assumption.
    + intros k sh Hk. rewrite lookup_insert_ne; [exact Hk|]. congruence.
    + reflexivity.
    + intros h Hh. injection Hh as <-. split; [exact Hs|].
      rewrite lookup_insert_eq. eauto.
  - split; [|split; [|split]].
    + intros n Hn. ctx_simpl. cbn [nextName with_nextName with_console] in Hn.
      apply HW. lia.
    + auto.
    + reflexivity.
    + intros h Hh. discriminate.
Qed.

Lemma WellNamed_newContext drv : WellNamed (newContext drv).
Proof.
  intros n _. repeat split; try reflexivity; discriminate.
Qed.

Lemma loadShader_keeps_names_witness :
  WellNamed (exec (loadShader VERTEX_SHADER vertexShaderSource) (newContext okDriver)).
Proof.
  exact (proj1 (loadShader_keeps_names VERTEX_SHADER vertexShaderSource
                  (newContext okDriver) (WellNamed_newContext okDriver))).
Defined.

(** X12. [createProgram] on two live shaders of different types never
    disturbs what is there either: every existing program and every shader
    is as before, and the names from the new counter on are unused, whether
    the link succeeded and the program holds the two shaders or it failed
    and the program is gone. *)
Theorem createProgram_keeps_names (vs fs : nat) (shv shf : Shader) (c : Context) :
  WellNamed c ->
  shaders c !! vs = Some shv -> shaders c !! fs = Some shf ->
  shType shv <> shType shf ->
  let c' := exec (createProgram (Some vs) (Some fs)) c in
  WellNamed c' /\
  (forall k pr, programs c !! k = Some pr -> programs c' !! k = Some pr) /\
  shaders c' = shaders c /\
  currentProgram c' = currentProgram c.
Proof.
  intros HW Hv Hf Hne c'. pose proof (WellNamed_Fresh c HW) as HF.
  pose proof (createProgram_run vs fs shv shf c HF Hv Hf Hne) as E. cbv zeta in E.
  unfold c', exec. rewrite E. clear E.
  destruct HF as (_ & Hp & _).
  assert (Hlt : forall k sh, shaders c !! k = Some sh -> (k < nextName c)%nat).
  { intros k sh Hk. destruct (le_lt_dec (nextName c) k) as [Hle|]; [|assumption].
    destruct (HW k Hle) as (H1 & _). congruence. }
  destruct (fst (drvLink (driver c) [shv; shf])); ctx_simpl.
  - split; [|split; [|split]]; try reflexivity.
    + intros n Hn. ctx_simpl. cbn [nextName with_nextName with_programs] in Hn.
      destruct (HW n ltac:(lia)) as (H1 & H2 & H3 & H4).
      rewrite lookup_insert_ne by lia. repeat split; try assumption.
      intros p pr Hpr.
      destruct (decide (p = nextName c)) as [->|Hp'].
      * rewrite lookup_insert_eq in Hpr. injection Hpr as <-. cbn.
        pose proof (Hlt _ _ Hv). pose proof (Hlt _ _ Hf).
        intros Hin. apply elem_of_cons in Hin as [->|Hin]; [lia|].
        apply list_elem_of_singleton in Hin. lia.
      * rewrite lookup_insert_ne in Hpr by congruence. exact (H4 p pr Hpr).
    + intros k pr Hk. rewrite lookup_insert_ne; [exact Hk|]. congruence.
  - split; [|split; [|split]]; try reflexivity; [|auto].
    intros n Hn. ctx_simpl. cbn [nextName with_nextName with_console] in Hn.
    apply HW. lia.
Qed.

Lemma createProgram_keeps_names_witness :
  WellNamed (exec (createProgram (Some 0%nat) (Some 1%nat)) (shaderContext okDriver)).
Proof.
  assert (HW : WellNamed (shaderContext okDriver)).
  { intros n Hn. cbn in Hn. unfold shaderContext. ctx_simpl.
    repeat split; try reflexivity; try discriminate.
    rewrite !lookup_insert_ne by lia. apply lookup_empty. }
  assert (Hne : VERTEX_SHADER <> FRAGMENT_SHADER) by discriminate.
  exact (proj1 (createProgram_keeps_names 0 1 (vertexShaderObject okDriver)
                  (fragmentShaderObject okDriver) (shaderContext okDriver)
                  HW eq_refl eq_refl Hne)).
Defined.

(** ** The static variants *)

Lemma sceneAttrib_insert loc pb tb b size (m : gmap Z VertexAttrib) :
  (b = pb /\ size = 3) \/ (b = tb /\ size = 2) ->
  map_Forall (fun _ va => sceneAttrib pb tb va) m ->
  map_Forall (fun _ va => sceneAttrib pb tb va) (<[loc := sourceAttrib b size]> m).
Proof.
  intros Hb Hm. apply map_Forall_insert_2; [|exact Hm].
  destruct Hb as [[-> ->] | [-> ->]]; [left | right]; reflexivity.
Qed.

(** The calls every [render] of the repository starts with: they bind the
    three buffers and leave the rest to the calls that follow. *)
Lemma bindScene_exec (tail : GLM unit) pb tb ib locP locT c :
  is_Some (buffers c !! pb) -> is_Some (buffers c !! tb) -> is_Some (buffers c !! ib) ->
  map_Forall (fun _ va => sceneAttrib pb tb va) (vertexAttribs c) ->
  exists c',
    exec (gl.bindBuffer ARRAY_BUFFER (Some pb);;
          gl.vertexAttribPointer locP 3 FLOAT;;
          gl.enableVertexAttribArray locP;;
          gl.bindBuffer ARRAY_BUFFER (Some tb);;
          gl.vertexAttribPointer locT 2 FLOAT;;
          gl.enableVertexAttribArray locT;;
          gl.bindBuffer ELEMENT_ARRAY_BUFFER (Some ib);;
          gl.activeTexture 0%nat;;
          tail) c = exec tail c' /\
    buffers c' = buffers c /\ textures c' = textures c /\
    textureBindings c' = textureBindings c /\ drawCalls c' = drawCalls c /\
    activeUnit c' = 0%nat /\ elementArrayBufferBinding c' = Some ib /\
    map_Forall (fun _ va => sceneAttrib pb tb va) (vertexAttribs c').
Proof.
  intros Bp Bt Bi Hva.
  unfold gl.bindBuffer, gl.vertexAttribPointer, gl.enableVertexAttribArray, gl.activeTexture.
  assert (Hpos : forall loc m, map_Forall (fun _ va => sceneAttrib pb tb va) m ->
            map_Forall (fun _ va => sceneAttrib pb tb va) (<[loc := sourceAttrib pb 3]> m))
    by (intros; apply sceneAttrib_insert; auto).
  assert (Htex : forall loc m, map_Forall (fun _ va => sceneAttrib pb tb va) m ->
            map_Forall (fun _ va => sceneAttrib pb tb va) (<[loc := sourceAttrib tb 2]> m))
    by (intros; apply sceneAttrib_insert; auto).
  destruct (bool_decide (0 <= locP)) eqn:E1;
  destruct (bool_decide (0 <= locT)) eqn:E2;
  gl_step; rewrite (bool_decide_eq_true_2 _ Bp);
  do 3 attrib_step; rewrite (bool_decide_eq_true_2 _ Bt);
  do 3 attrib_step; rewrite (bool_decide_eq_true_2 _ Bi);
  rewrite exec_modify_bind; ctx_simpl;
  (eexists; split; [reflexivity|]; ctx_simpl; repeat split;
   fold (sourceAttrib pb 3); fold (sourceAttrib tb 2); auto).
Qed.

Lemma scene_draw_inRange d pb tb ib l lp lt n :
  dcElementBuffer d = Some ib ->
  dcBuffers d !! ib = Some (Uint16Array l) ->
  dcBuffers d !! pb = Some (Float32Array lp) ->
  dcBuffers d !! tb = Some (Float32Array lt) ->
  dcOffset d = 0 -> dcCount d = Z.of_nat (length l) ->
  Forall (fun i => 0 <= i < n) l ->
  n * 3 <= Z.of_nat (length lp) -> n * 2 <= Z.of_nat (length lt) ->
  map_Forall (fun _ va => sceneAttrib pb tb va) (dcAttribs d) ->
  drawInRange d.
Proof.
  intros He Hi Hp Ht Ho Hc Hl Hlp Hlt Hva.
  exists ib, l. rewrite Ho, Hc.
  change (0 `div` 2) with 0. change (Z.to_nat 0) with 0%nat.
  split; [exact He|]. split; [exact Hi|]. split; [lia|]. split; [lia|].
  rewrite drop_0, Nat2Z.id, firstn_all.
  eapply Forall_impl; [exact Hl|]. intros i Hrange. cbv beta in Hrange.
  split; [lia|].
  eapply map_Forall_impl; [exact Hva|].
  intros k va [-> | ->] _; cbn.
  - exists pb, lp. repeat split; try assumption. nia.
  - exists tb, lt. repeat split; try assumption. nia.
Qed.

Ltac cube_link_step drv H :=
  erewrite bind_return;
  [ | ctx_simpl; cbn [nextName newContext];
      erewrite createProgram_run;
      [ cbv zeta; ctx_simpl; cbn [driver newContext];
        fold (vertexShaderObject drv); fold (Cube24.fragmentShaderObject drv);
        rewrite H; reflexivity
      | fresh_names | reflexivity | reflexivity | discriminate ] ].

Lemma cube_setup drv :
  Cube24.DriverOk drv ->
  exists a c, Cube24.setup (newContext drv) = (Return a, c) /\ ctx a = c /\
    posBuffer a = Some 3%nat /\ texCoordBuffer a = Some 4%nat /\
    indexBuffer a = Some 5%nat /\ texture a = None /\
    buffers c = <[5%nat := Uint16Array Cube24.indexData]>
                  (<[4%nat := Float32Array Cube24.texCoordData]>
                     (<[3%nat := Float32Array Cube24.posData]> ∅)) /\
    textures c = ∅ /\ textureBindings c = ∅ /\ vertexAttribs c = ∅ /\
    drawCalls c = [] /\ console c = [].
Proof.
  intros (H1 & H2 & H3). unfold Cube24.setup.
  load_step H1. load_step H2. cube_link_step drv H3.
  eexists _, _. split; [vm_compute; reflexivity|].
  repeat split; vm_compute; reflexivity.
Qed.

Lemma cube_frame drv :
  Cube24.DriverOk drv ->
  exists a d, Cube24.main drv = Return a /\
    posBuffer a = Some 3%nat /\ texCoordBuffer a = Some 4%nat /\
    indexBuffer a = Some 5%nat /\
    buffers (ctx a) = <[5%nat := Uint16Array Cube24.indexData]>
                        (<[4%nat := Float32Array Cube24.texCoordData]>
                           (<[3%nat := Float32Array Cube24.posData]> ∅)) /\
    textures (ctx a) = ∅ /\ textureBindings (ctx a) = ∅ /\
    drawCalls (ctx a) = [d] /\
    dcMode d = TRIANGLES /\ dcCount d = 36 /\ dcType d = UNSIGNED_SHORT /\
    dcOffset d = 0 /\ dcElementBuffer d = Some 5%nat /\
    dcBuffers d = buffers (ctx a) /\ dcTexture d = None /\
    map_Forall (fun _ va => sceneAttrib 3 4 va) (dcAttribs d).
Proof.
  intros Hok.
  destruct (cube_setup drv Hok)
    as (a & c & E & Hc & Hp & Ht & Hi & Hx & Hb & Htx & Htb & Hva & Hd & _).
  destruct (bindScene_exec (gl.drawElements TRIANGLES 36 UNSIGNED_SHORT 0)
              3 4 5 (aPos (programInfo a)) (aTexCoord (programInfo a)) c)
    as (c' & E' & Eb & Etx & Etb & Ed & Eu & Ee & Eva);
    try (rewrite Hb; eexists; reflexivity).
  { rewrite Hva. apply map_Forall_empty. }
  unfold Cube24.main. rewrite E. eexists (Cube24.render a), _.
  split; [reflexivity|]. unfold Cube24.render. cbn [ctx posBuffer texCoordBuffer indexBuffer with_ctx].
  unfold Cube24.renderGL. rewrite Hc, Hp, Ht, Hi.
  rewrite E'. unfold gl.drawElements. rewrite exec_modify. ctx_simpl.
  rewrite Eb, Etx, Etb, Ed, Ee, Hb, Htx, Htb, Hd.
  repeat split; try reflexivity. exact Eva.
Qed.

(** X13. The 24-vertex variant gets through [main] on a platform that
    compiles and links its shaders, with exactly three buffer objects: 72
    position floats, 48 texCoord floats and 36 indices. Its one draw call
    is an indexed draw of triangles over all 36 indices, and every index is
    a vertex of both attribute arrays (24 vertices each). *)
Theorem cube_draw_in_range (drv : Driver) :
  Cube24.DriverOk drv ->
  exists a d, Cube24.main drv = Return a /\
    size (buffers (ctx a)) = 3%nat /\
    (exists pb tb ib,
       posBuffer a = Some pb /\ texCoordBuffer a = Some tb /\ indexBuffer a = Some ib /\
       buffers (ctx a) !! pb = Some (Float32Array Cube24.posData) /\
       buffers (ctx a) !! tb = Some (Float32Array Cube24.texCoordData) /\
       buffers (ctx a) !! ib = Some (Uint16Array Cube24.indexData)) /\
    length Cube24.posData = (24 * 3)%nat /\
    length Cube24.texCoordData = (24 * 2)%nat /\
    drawCalls (ctx a) = [d] /\
    dcMode d = TRIANGLES /\ dcType d = UNSIGNED_SHORT /\ dcOffset d = 0 /\
    dcCount d = Z.of_nat (length Cube24.indexData) /\
    drawInRange d.
Proof.
  intros Hok.
  destruct (cube_frame drv Hok)
    as (a & d & Hm & Hp & Ht & Hi & Hb & Htx & Htb & Hd & Hmode & Hcnt & Hty & Hoff
        & Hel & Hdb & Hdt & Hva).
  exists a, d. split; [exact Hm|]. rewrite Hb.
  split; [vm_compute; reflexivity|].
  split; [exists 3%nat, 4%nat, 5%nat; repeat split; assumption|].
  split; [reflexivity|]. split; [reflexivity|]. split; [exact Hd|].
  split; [exact Hmode|]. split; [exact Hty|]. split; [exact Hoff|].
  split; [rewrite Hcnt; reflexivity|].
  assert (H5 : dcBuffers d !! 5%nat = Some (Uint16Array Cube24.indexData))
    by (rewrite Hdb, Hb; reflexivity).
  assert (H3 : dcBuffers d !! 3%nat = Some (Float32Array Cube24.posData))
    by (rewrite Hdb, Hb; reflexivity).
  assert (H4 : dcBuffers d !! 4%nat = Some (Float32Array Cube24.texCoordData))
    by (rewrite Hdb, Hb; reflexivity).
  assert (Hc' : dcCount d = Z.of_nat (length Cube24.indexData))
    by (rewrite Hcnt; reflexivity).
  assert (Hidx : Forall (fun i => 0 <= i < 24) Cube24.indexData)
    by (unfold Cube24.indexData; repeat constructor; lia).
  assert (Hlp : 24 * 3 <= Z.of_nat (length Cube24.posData)) by (vm_compute; discriminate).
  assert (Hlt : 24 * 2 <= Z.of_nat (length Cube24.texCoordData)) by (vm_compute; discriminate).
  exact (scene_draw_inRange d 3 4 5 _ _ _ 24 Hel H5 H3 H4 Hoff Hc' Hidx Hlp Hlt Hva).
Qed.

Lemma Cube24_DriverOk_okDriver : Cube24.DriverOk okDriver.
Proof. repeat split. Qed.

Lemma cube_draw_in_range_witness :
  exists a d, Cube24.main okDriver = Return a /\ drawCalls (ctx a) = [d] /\ drawInRange d.
Proof.
  destruct (cube_draw_in_range okDriver Cube24_DriverOk_okDriver)
    as (a & d & Hm & _ & _ & _ & _ & Hd & _ & _ & _ & _ & Hr).
  exists a, d. repeat split; assumption.
Defined.

(** X14. The 24-vertex variant never creates or binds a texture, though
    its fragment shader samples one: after [main] the context holds no
    texture object and no unit has one bound, and the draw call read none. *)
Theorem cube_draws_without_texture (drv : Driver) :
  Cube24.DriverOk drv ->
  exists a d, Cube24.main drv = Return a /\
    texture a = None /\
    textures (ctx a) = ∅ /\ textureBindings (ctx a) = ∅ /\
    drawCalls (ctx a) = [d] /\ dcTexture d = None.
Proof.
  intros Hok.
  destruct (cube_frame drv Hok)
    as (a & d & Hm & Hp & Ht & Hi & Hb & Htx & Htb & Hd & Hmode & Hcnt & Hty & Hoff
        & Hel & Hdb & Hdt & Hva).
  exists a, d. repeat split; try assumption.
  unfold Cube24.main in Hm.
  destruct (cube_setup drv Hok) as (a0 & c & E & _ & _ & _ & _ & Hx & _).
  rewrite E in Hm. injection Hm as <-. exact Hx.
Qed.

Lemma cube_draws_without_texture_witness :
  exists a d, Cube24.main okDriver = Return a /\ drawCalls (ctx a) = [d] /\
    dcTexture d = None.
Proof.
  destruct (cube_draws_without_texture okDriver Cube24_DriverOk_okDriver)
    as (a & d & Hm & _ & _ & _ & Hd & Ht).
  exists a, d. repeat split; assumption.
Defined.

Lemma static_setup drv :
  DriverOk drv ->
  StaticNet.setup (newContext drv) =
    (Return (with_ctx (with_buffers staticBuffers (setupContext drv))
               (with_sliders [] (setupApp drv))),
     with_buffers staticBuffers (setupContext drv)).
Proof.
  intros (H1 & H2 & H3). unfold StaticNet.setup.
  load_step H1. load_step H2. link_step drv H3.
  vm_compute. reflexivity.
Qed.

(** X15. The static cube net sets its scene up as the interactive script
    does: on a platform that compiles and links the shaders, its set-up
    returns the page and the context of the interactive set-up with two
    differences, the position table in the position buffer and the absence
    of markers. *)
Theorem static_setup_is_interactive_setup (drv : Driver) :
  DriverOk drv ->
  exists a c,
    setup (newContext drv) = (Return a, c) /\
    StaticNet.setup (newContext drv) =
      (Return (with_ctx (with_buffers
                           (<[posName := Float32Array StaticNet.posData]> (buffers c)) c)
                 (with_sliders [] a)),
       with_buffers (<[posName := Float32Array StaticNet.posData]> (buffers c)) c).
Proof.
  intros Hok. exists (setupApp drv), (setupContext drv).
  split; [apply setup_ok, Hok|]. apply static_setup, Hok.
Qed.

Lemma static_setup_is_interactive_setup_witness :
  exists a c,
    setup (newContext okDriver) = (Return a, c) /\
    StaticNet.setup (newContext okDriver) =
      (Return (with_ctx (with_buffers
                           (<[posName := Float32Array StaticNet.posData]> (buffers c)) c)
                 (with_sliders [] a)),
       with_buffers (<[posName := Float32Array StaticNet.posData]> (buffers c)) c).
Proof. exact (static_setup_is_interactive_setup okDriver DriverOk_okDriver). Defined.

Lemma static_render_inv a :
  StaticInv a ->
  StaticInv (StaticNet.render a) /\ drawCalls (ctx (StaticNet.render a)) <> [].
Proof.
  intros [Hp Ht Hi Hx Hs Hb (t & Htx & Hpt) Hva Hdr].
  assert (B : forall n, n = posName \/ n = texCoordName \/ n = indexName ->
                        is_Some (buffers (ctx a) !! n)).
  { intros n [-> | [-> | ->]]; rewrite Hb; eexists; reflexivity. }
  destruct (bindScene_exec
              (gl.bindTexture (Some textureName);;
               gl.drawElements TRIANGLES 18 UNSIGNED_SHORT 0)
              posName texCoordName indexName
              (aPos (programInfo a)) (aTexCoord (programInfo a)) (ctx a))
    as (c' & E' & Eb & Etx & Etb & Ed & Eu & Ee & Eva); auto.
  assert (Tx : is_Some (textures c' !! textureName))
    by (rewrite Etx, Htx, lookup_singleton_eq; eauto).
  unfold StaticNet.render, renderGL. rewrite Hp, Ht, Hi, Hx, E'.
  unfold gl.bindTexture, gl.drawElements.
  gl_step. rewrite (bool_decide_eq_true_2 _ Tx). gl_step.
  rewrite Eu, lookup_insert_eq, Eb, Etx, Ed, Ee.
  split.
  - split; cbn [ctx posBuffer texCoordBuffer indexBuffer texture sliders with_ctx];
      ctx_simpl; rewrite ?Eb, ?Etx, ?Ed, ?Ee; try assumption.
    + exists t. split; assumption.
    + apply Forall_app. split; [exact Hdr|]. constructor; [|constructor].
      cbn. repeat split.
      assert (H5 : buffers (ctx a) !! indexName = Some (Uint16Array indexData))
        by (rewrite Hb; reflexivity).
      assert (H3 : buffers (ctx a) !! posName = Some (Float32Array StaticNet.posData))
        by (rewrite Hb; reflexivity).
      assert (H4 : buffers (ctx a) !! texCoordName = Some (Float32Array texCoordData))
        by (rewrite Hb; reflexivity).
      assert (Hidx : Forall (fun i => 0 <= i < 8) indexData)
        by (unfold indexData; repeat constructor; lia).
      assert (Hlp : 8 * 3 <= Z.of_nat (length StaticNet.posData))
        by (vm_compute; discriminate).
      assert (Hlt : 8 * 2 <= Z.of_nat (length texCoordData)) by (vm_compute; discriminate).
      eapply (scene_draw_inRange _ posName texCoordName indexName _ _ _ 8);
        cbn; try eassumption; reflexivity.
  - cbn [ctx with_ctx]. ctx_simpl. intros H. apply app_eq_nil in H. destruct H; discriminate.
Qed.

(** X16. In every state of the static cube net's page, after any number
    of image loads, the buffer objects are those [main] made, there is one
    texture object with the parameters [main] set, and every draw call on
    record drew 18 indices as triangles, sampled that texture and read only
    indices inside both attribute arrays; there is at least one. *)
Theorem static_draws_in_range (drv : Driver) (a : App) :
  DriverOk drv ->
  StaticNet.reachable drv a ->
  buffers (ctx a) = staticBuffers /\
  (exists t, textures (ctx a) = {[ textureName := t ]} /\ pageTexture t) /\
  drawCalls (ctx a) <> [] /\
  Forall (fun d => dcMode d = TRIANGLES /\ dcCount d = 18 /\
                   dcTexture d = Some textureName /\ drawInRange d)
    (drawCalls (ctx a)).
Proof.
  intros Hok Hr.
  assert (H : StaticInv a /\ drawCalls (ctx a) <> []).
  { induction Hr as [a Hm | a img Hr [IH _]].
    - unfold StaticNet.main in Hm. rewrite (static_setup drv Hok) in Hm.
      injection Hm as <-. apply static_render_inv.
      split; try reflexivity.
      + exists placeholderTexture. repeat split.
      + apply map_Forall_empty.
      + constructor.
    - unfold StaticNet.onload. apply static_render_inv.
      destruct IH as [Hp Ht Hi Hx Hs Hb (t & Htx & Hpt) Hva Hdr].
      cbn [texture ctx with_image]. rewrite Hx.
      unfold gl.bindTexture, gl.texImage2D_image, gl.boundTexture.
      assert (Tx : is_Some (textures (ctx a) !! textureName))
        by (rewrite Htx, lookup_singleton_eq; eauto).
      assert (Z0 : 0 <= 0) by lia.
      gl_step. rewrite (bool_decide_eq_true_2 _ Tx).
      gl_step. rewrite lookup_insert_eq, (bool_decide_eq_true_2 _ Z0).
      split; cbn [ctx posBuffer texCoordBuffer indexBuffer texture sliders
                  with_ctx with_image]; ctx_simpl; try assumption.
      rewrite Htx, alter_singleton_eq. eexists. split; [reflexivity|]. exact Hpt. }
  destruct H as [[Hp Ht Hi Hx Hs Hb Htx Hva Hdr] Hne].
  repeat split; assumption.
Qed.

Lemma static_draws_in_range_witness :
  exists a, StaticNet.main okDriver = Return a /\
    Forall (fun d => dcMode d = TRIANGLES /\ dcCount d = 18 /\
                     dcTexture d = Some textureName /\ drawInRange d)
      (drawCalls (ctx (StaticNet.onload image400 a))).
Proof.
  eexists. split; [vm_compute; reflexivity|].
  refine (proj2 (proj2 (proj2 (static_draws_in_range okDriver _ DriverOk_okDriver _)))).
  apply StaticNet.reachable_onload, StaticNet.reachable_main.
  vm_compute. reflexivity.
Defined.
(** ** Rendering again *)








